(** * QuickCut Pro: the Monday.com webhook handler

    A shallow embedding of the serverless function that reconciles the
    field-change events of the external board with the rows of the
    [projects] table (the handler beside [api/create-project.ts]), and of
    the part of the SQL migration that declares that table, followed by
    the properties the specification states about them; then of the
    code around it: the creation handler, the board service of the
    client, the handlers of the project page, and the pages.

    Layout:
    - [Js]           JavaScript values, truthiness, property access, strings;
    - [Store]        the Supabase client as an interface, the trace of the
                     calls sent to it, and the [projects] table of the
                     migration in memory;
    - [Webhook]      the handler;
    - [Reference]    an engine with a JSON parser, to run the handler;
    - [Statements], [MoreStatements], [ClientStatements]
                     the vocabulary the properties are stated in;
    - [Scenario], [MoreScenario]
                     configurations, tables, requests and answers;
    - [CreateProject] the handler of [api/create-project.ts];
    - [Monday]       [MondayService] and [createMondayService];
    - [ProjectView]  [handleSubmitFeedback] and [handleApprove];
    - [App], [SignUp] [AppContent] and the sign-up form;
    - [WebhookFacts] the properties of the specification;
    - [Runs]         the handler on the requests of [Scenario];
    - [HandlerFacts], [CreateProjectFacts], [ClientFacts]
                     further properties of the code;
    - [MoreRuns]     the code on the inputs of [MoreScenario].

    Console output is not modelled, and [createClient], which builds the
    client object without sending anything, is left out. A request of
    the client to the board is recorded by its variables, and what
    [fetch] or the store resolve to is given. The in-memory table
    compares cells as text and does not check the types of the
    columns. *)

From Stdlib Require Import ZArith List String Ascii Bool Lia.
Import ListNotations.
Local Open Scope Z_scope.

(* ===================================================================== *)
(** * JavaScript values                                                   *)
(* ===================================================================== *)

Module Js.

(** A JavaScript string is a sequence of UTF-16 code units. *)
Definition jsstring : Type := list Z.

(** An ASCII literal of the source, as code units. *)
Definition js (s : string) : jsstring :=
  map (fun a => Z.of_nat (nat_of_ascii a)) (list_ascii_of_string s).

Fixpoint str_eqb (a b : jsstring) : bool :=
  match a, b with
  | [], [] => true
  | x :: a', y :: b' => (x =? y) && str_eqb a' b'
  | _, _ => false
  end.

Section Values.

Variable number : Type.

#[local] Unset Elimination Schemes.

(** The values a request body, a parsed JSON text or a database row can
    hold. Numbers are kept abstract: the handler only ever tests them for
    truthiness. An object is its list of own properties in insertion
    order; the first binding of a key is the effective one. *)
Inductive JsVal : Type :=
| JUndefined
| JNull
| JBool (b : bool)
| JNum (n : number)
| JStr (s : jsstring)
| JArr (items : list JsVal)
| JObj (props : list (jsstring * JsVal)).

End Values.

Arguments JUndefined {number}.
Arguments JNull {number}.
Arguments JBool {number} b.
Arguments JNum {number} n.
Arguments JStr {number} s.
Arguments JArr {number} items.
Arguments JObj {number} props.

(** What the handler needs from the JavaScript engine. *)
Class Engine (number : Type) : Type := {
  (** [false] exactly on [0], [-0] and [NaN] *)
  num_truthy : number -> bool;
  (** [JSON.parse]; [None] stands for the [SyntaxError] it throws *)
  JSON_parse : jsstring -> option (JsVal number);
  (** the message of the [TypeError] the engine raises *)
  type_error_message : jsstring
}.

(** Outcome of evaluating an expression: a value, or a thrown exception.
    What is thrown is either a value ([throw e]) or the engine's own
    [TypeError]. *)
Inductive Exn (number : Type) : Type :=
| Thrown (v : JsVal number)
| TypeError.

Arguments Thrown {number} v.
Arguments TypeError {number}.

Inductive Result (number A : Type) : Type :=
| Ok (a : A)
| Throw (e : Exn number).

Arguments Ok {number A} a.
Arguments Throw {number A} e.

Section Operations.

Context {number : Type} {engine : Engine number}.

#[local] Abbreviation value := (JsVal number).
#[local] Abbreviation Props := (list (jsstring * value)).

(** ToBoolean. *)
Definition truthy (v : value) : bool :=
  match v with
  | JUndefined | JNull => false
  | JBool b => b
  | JNum n => num_truthy n
  | JStr [] => false
  | JStr (_ :: _) => true
  | JArr _ | JObj _ => true
  end.

(** [a || b] *)
Definition js_or (a b : value) : value := if truthy a then a else b.

(** Own-property lookup. *)
Fixpoint lookup (k : jsstring) (ps : Props) : value :=
  match ps with
  | [] => JUndefined
  | (k', v) :: ps' => if str_eqb k k' then v else lookup k ps'
  end.

(** [o[k] = v] on an object literal: overwrite in place, else append. *)
Fixpoint assign (k : jsstring) (v : value) (ps : Props) : Props :=
  match ps with
  | [] => [(k, v)]
  | (k', v') :: ps' =>
      if str_eqb k k' then (k', v) :: ps' else (k', v') :: assign k v ps'
  end.

(** [v?.k]. The property names the handler reads ([challenge], [event],
    [pulseId], [columnId], [value], [label], [text], [url], [date],
    [checked], [id], [message]) are defined on no primitive wrapper and on
    no array, so only an object can answer with something else than
    [undefined]. *)
Definition get_opt (v : value) (k : string) : value :=
  match v with
  | JObj ps => lookup (js k) ps
  | _ => JUndefined
  end.

(** [v.k]: as [v?.k], but reading a property of [undefined] or [null]
    throws. *)
Definition get (v : value) (k : string) : Result number value :=
  match v with
  | JUndefined | JNull => Throw TypeError
  | _ => Ok (get_opt v k)
  end.

(** [v === s] for a string [s]. *)
Definition strict_eq_str (v : value) (s : jsstring) : bool :=
  match v with
  | JStr t => str_eqb t s
  | _ => false
  end.

(** [v === true] *)
Definition strict_eq_true (v : value) : bool :=
  match v with
  | JBool true => true
  | _ => false
  end.

(** [typeof v === 'string'] *)
Definition is_string (v : value) : bool :=
  match v with
  | JStr _ => true
  | _ => false
  end.

(** [new Error(msg)], as far as the handler looks at it. *)
Definition new_Error (msg : string) : value :=
  JObj [(js "message", JStr (js msg))].

(** [err.message] in a [catch (err)] clause. *)
Definition exn_message (e : Exn number) : Result number value :=
  match e with
  | Thrown v => get v "message"
  | TypeError => Ok (JStr type_error_message)
  end.

(** ** [String.prototype.trim] *)

(** WhiteSpace and LineTerminator code units of ECMAScript. *)
Definition is_white_space (c : Z) : bool :=
  ((9 <=? c) && (c <=? 13))
  || (c =? 32) || (c =? 160) || (c =? 5760)
  || ((8192 <=? c) && (c <=? 8202))
  || (c =? 8232) || (c =? 8233) || (c =? 8239) || (c =? 8287)
  || (c =? 12288) || (c =? 65279).

Fixpoint trim_start (s : jsstring) : jsstring :=
  match s with
  | [] => []
  | c :: s' => if is_white_space c then trim_start s' else s
  end.

Definition trim (s : jsstring) : jsstring :=
  rev (trim_start (rev (trim_start s))).

End Operations.

End Js.

(* ===================================================================== *)
(** * The record store                                                    *)
(* ===================================================================== *)

Module Store.

Import Js.

Section Interface.

Context {number : Type}.

#[local] Abbreviation value := (JsVal number).

(** The [{ data, error }] pair every query of the client resolves to. *)
Record QueryResult : Type := {
  data : value;
  error : value
}.

(** The three queries the handler builds on [supabase.from('projects')].
    The store is a remote service: what it answers, and whether it
    answers with an error, is its own business, so the handler is written
    against this interface and every answer comes with the next state of
    the store.
    - [select_eq_maybeSingle cols c v]: [.select(cols).eq(c, v).maybeSingle()]
    - [select_list cols]:               [.select(cols)]
    - [update_eq payload c v]:          [.update(payload).eq(c, v)], which
      resolves to the [error] alone. *)
Class ProjectsTable (S : Type) : Type := {
  select_eq_maybeSingle : jsstring -> jsstring -> value -> S -> QueryResult * S;
  select_list : jsstring -> S -> QueryResult * S;
  update_eq : value -> jsstring -> value -> S -> value * S
}.

(** The requests sent to the store, in the order they were sent. *)
Inductive Call : Type :=
| SelectMaybeSingle (columns column : jsstring) (v : value)
| SelectList (columns : jsstring)
| Update (payload : value) (column : jsstring) (v : value).

Definition is_write (c : Call) : bool :=
  match c with
  | Update _ _ _ => true
  | _ => false
  end.

(** What a run of the handler can see and change. *)
Record World (S : Type) : Type := {
  store : S;
  calls : list Call
}.

End Interface.

Arguments QueryResult number : clear implicits.
Arguments Call number : clear implicits.
Arguments World number S : clear implicits.
Arguments Build_World {number S} _ _.
Arguments store {number S} _.
Arguments calls {number S} _.

(** ** A state-and-exception monad over the world *)

Section Monad.

Context {number : Type} {S : Type}.

Definition M (A : Type) : Type :=
  World number S -> Result number A * World number S.

Definition ret {A} (a : A) : M A := fun w => (Ok a, w).

Definition bind {A B} (m : M A) (k : A -> M B) : M B :=
  fun w =>
    match m w with
    | (Ok a, w') => k a w'
    | (Throw e, w') => (Throw e, w')
    end.

(** [throw e] *)
Definition raise {A} (e : Exn number) : M A := fun w => (Throw e, w).

(** An effect-free expression that may throw. *)
Definition lift {A} (r : Result number A) : M A := fun w => (r, w).

(** [try { m } catch (err) { h err }]: what [m] did to the store before
    it threw stays done. *)
Definition try_catch {A} (m : M A) (h : Exn number -> M A) : M A :=
  fun w =>
    match m w with
    | (Ok a, w') => (Ok a, w')
    | (Throw e, w') => h e w'
    end.

Context {table : ProjectsTable (number := number) S}.

(** [await supabase.from('projects').select(cols).eq(c, v).maybeSingle()] *)
Definition query_maybeSingle (columns column : jsstring) (v : JsVal number)
  : M (QueryResult number) :=
  fun w =>
    let (r, s') := select_eq_maybeSingle columns column v (store w) in
    (Ok r, Build_World s' (calls w ++ [SelectMaybeSingle columns column v])).

(** [await supabase.from('projects').select(cols)] *)
Definition query_list (columns : jsstring) : M (QueryResult number) :=
  fun w =>
    let (r, s') := select_list columns (store w) in
    (Ok r, Build_World s' (calls w ++ [SelectList columns])).

(** [await supabase.from('projects').update(payload).eq(c, v)] *)
Definition query_update (payload : JsVal number) (column : jsstring)
  (v : JsVal number) : M (JsVal number) :=
  fun w =>
    let (e, s') := update_eq payload column v (store w) in
    (Ok e, Build_World s' (calls w ++ [Update payload column v])).

End Monad.

Declare Scope handler_scope.
Delimit Scope handler_scope with handler.

Notation "x <- c ;; k" := (bind c (fun x => k))
  (at level 61, c at next level, right associativity) : handler_scope.

(** ** The [projects] table of the migration, in memory *)

(** One instance of the interface: the table [CREATE TABLE projects]
    declares, with the trigger that stamps [updated_at], answering the
    three queries from a list of rows. Cells are compared as text; the
    type checks of the database (a malformed [uuid], a value of the wrong
    type) and its other faults are not part of this instance: they are
    answers with an [error], which the interface allows. *)

Section Memory.

Context {number : Type}.

#[local] Abbreviation value := (JsVal number).

(** A row as the client hands it over: an object with one property per
    column. *)
Definition Row : Type := list (jsstring * value).

(** [CREATE TABLE IF NOT EXISTS projects]: the declared columns. *)
Definition projects_columns : list jsstring :=
  map js [ "id"; "user_id"; "monday_item_id"; "name"; "status"; "priority";
           "due_date"; "file_url"; "file_name"; "grant_view"; "created_at";
           "updated_at" ]%string.

(** The table and the clock [now()] reads. *)
Record Db : Type := {
  projects : list Row;
  now : value
}.

(** [column = v] of a filter. The handler filters on the text of an
    identifier: a cell equals a string it holds, a [NULL] cell equals
    nothing, and a filter value that is not a string selects no row. *)
Definition cell_eq (cell v : value) : bool :=
  match v with
  | JStr s => strict_eq_str cell s
  | _ => false
  end.

Definition matching (column : jsstring) (v : value) (rows : list Row)
  : list Row :=
  filter (fun r => cell_eq (lookup column r) v) rows.

Definition has_column (k : jsstring) : bool :=
  existsb (str_eqb k) projects_columns.

Definition store_error (msg : string) : value :=
  JObj [(js "message", JStr (js msg))].

(** The column names of a select list such as ['id, monday_item_id, name']:
    the pieces between commas, without the blanks. *)
Fixpoint split_columns (cur : jsstring) (s : jsstring) : list jsstring :=
  match s with
  | [] => [rev cur]
  | c :: s' =>
      if c =? 44 then rev cur :: split_columns [] s'
      else if c =? 32 then split_columns cur s'
      else split_columns (c :: cur) s'
  end.

Definition project_row (columns : jsstring) (r : Row) : Row :=
  if str_eqb columns (js "*") then r
  else filter (fun kv => existsb (str_eqb (fst kv)) (split_columns [] columns))
              r.

(** [maybeSingle]: no row is [null], one row is that row, more is an
    error. *)
Definition mem_select_eq_maybeSingle (columns column : jsstring) (v : value)
  (db : Db) : QueryResult number * Db :=
  match matching column v (projects db) with
  | [] => ({| data := JNull; error := JNull |}, db)
  | [r] => ({| data := JObj (project_row columns r); error := JNull |}, db)
  | _ :: _ :: _ =>
      ({| data := JNull;
          error := store_error
            "JSON object requested, multiple (or no) rows returned" |}, db)
  end.

Definition mem_select_list (columns : jsstring) (db : Db)
  : QueryResult number * Db :=
  ({| data := JArr (map (fun r => JObj (project_row columns r)) (projects db));
      error := JNull |},
   db).

(** [SET k = v] for every property of the payload. *)
Definition merge (payload : list (jsstring * value)) (r : Row) : Row :=
  fold_left (fun acc kv => assign (fst kv) (snd kv) acc) payload r.

(** [update_projects_updated_at]: [BEFORE UPDATE ... FOR EACH ROW],
    [NEW.updated_at = now()]. *)
Definition update_updated_at_column (db : Db) (r : Row) : Row :=
  assign (js "updated_at") (now db) r.

Definition payload_props (payload : value) : list (jsstring * value) :=
  match payload with
  | JObj ps => ps
  | _ => []
  end.

(** An update naming a column the table does not have is refused as a
    whole; otherwise every row the filter selects takes the payload and
    is stamped by the trigger. *)
Definition mem_update_eq (payload : value) (column : jsstring) (v : value)
  (db : Db) : value * Db :=
  let ps := payload_props payload in
  if forallb (fun kv => has_column (fst kv)) ps then
    (JNull,
     {| projects :=
          map (fun r =>
                 if cell_eq (lookup column r) v
                 then update_updated_at_column db (merge ps r)
                 else r)
              (projects db);
        now := now db |})
  else
    (store_error "Could not find the column of 'projects' in the schema cache",
     db).

#[export] Instance MemTable : ProjectsTable (number := number) Db := {
  select_eq_maybeSingle := mem_select_eq_maybeSingle;
  select_list := mem_select_list;
  update_eq := mem_update_eq
}.

End Memory.

Arguments Row number : clear implicits.
Arguments Db number : clear implicits.

End Store.

(* ===================================================================== *)
(** * The webhook handler                                                 *)
(* ===================================================================== *)

Module Webhook.

Import Js Store.

Local Open Scope handler_scope.

(** [process.env], as far as the handler reads it. A variable that is not
    set reads as [undefined]. *)
Record Env : Type := {
  SUPABASE_URL : option jsstring;
  SUPABASE_SERVICE_ROLE_KEY : option jsstring;
  MONDAY_NAME_COL_ID : option jsstring;
  MONDAY_STATUS_COL_ID : option jsstring;
  MONDAY_PRIORITY_COL_ID : option jsstring;
  MONDAY_FILE_COL_ID : option jsstring;
  MONDAY_DUEDATE_COL_ID : option jsstring;
  MONDAY_GRANT_ACCESS_COL_ID : option jsstring;
  MONDAY_FEEDBACK_COL_ID : option jsstring
}.

Section Handler.

Context {number : Type} {engine : Engine number}.
Context {S : Type} {table : ProjectsTable (number := number) S}.

#[local] Abbreviation value := (JsVal number).
#[local] Abbreviation Props := (list (jsstring * value)).

Variable env : Env.

(** [VercelRequest]: the method and the body as the platform delivers
    it, parsed or as a string. *)
Record Request : Type := {
  method : jsstring;
  body : value
}.

(** [VercelResponse] once [res.status(code).json(payload)] has run. *)
Record Response : Type := {
  status : Z;
  headers : list (string * string);
  json : value
}.

(** The three [res.setHeader] calls every response starts with. *)
Definition cors_headers : list (string * string) :=
  [ ("Access-Control-Allow-Origin", "*");
    ("Access-Control-Allow-Methods", "POST, OPTIONS");
    ("Access-Control-Allow-Headers", "Content-Type, Authorization") ]%string.

Definition respond (code : Z) (payload : value) : Response :=
  {| status := code; headers := cors_headers; json := payload |}.

(** A variable of the environment as a value. *)
Definition env_value (x : option jsstring) : value :=
  match x with
  | Some s => JStr s
  | None => JUndefined
  end.

Definition supabaseUrl : value := env_value (SUPABASE_URL env).
Definition supabaseServiceKey : value :=
  env_value (SUPABASE_SERVICE_ROLE_KEY env).

(** [case c:] of the [switch]: [columnId === c]. *)
Definition case_matches (columnId : value) (c : option jsstring) : bool :=
  match c with
  | Some s => strict_eq_str columnId s
  | None => match columnId with JUndefined => true | _ => false end
  end.

(** [typeof x === 'string' ? JSON.parse(x) : x] inside [try], with the
    [catch] that keeps [x]: the body of [safeParse], and of the payload
    parse before it. *)
Definition safeParse (x : value) : value :=
  match x with
  | JStr s =>
      match JSON_parse s with
      | Some v => v
      | None => x
      end
  | _ => x
  end.

(** The character class of the regular expression of the priority
    branch, [[\u2700-\u27BF]], [[\uE000-\uF8FF]] and
    [[\uD83C-\uDBFF\uDC00-\uDFFF]]: without the [u] flag it is matched
    one code unit at a time. *)
Definition is_glyph_unit (c : Z) : bool :=
  ((0x2700 <=? c) && (c <=? 0x27BF))
  || ((0xE000 <=? c) && (c <=? 0xF8FF))
  || (((0xD83C <=? c) && (c <=? 0xDBFF)) || ((0xDC00 <=? c) && (c <=? 0xDFFF))).

(** [s.replace(/.../g, '')] *)
Definition strip_glyphs (s : jsstring) : jsstring :=
  filter (fun c => negb (is_glyph_unit c)) s.

(** [text.replace(/.../g, '').trim()]: only a string has [replace]. *)
Definition cleanText (text : value) : Result number value :=
  match text with
  | JStr s => Ok (JStr (trim (strip_glyphs s)))
  | _ => Throw TypeError
  end.

Definition rbind {A B} (r : Result number A) (k : A -> Result number B)
  : Result number B :=
  match r with
  | Ok a => k a
  | Throw e => Throw e
  end.

Notation "x <~ c ;; k" := (rbind c (fun x => k))
  (at level 61, c at next level, right associativity).

(** The [switch (event.columnId)]: the [updates] object it leaves. *)
Definition dispatch (event v : value) (updates : Props)
  : Result number Props :=
  columnId <~ get event "columnId" ;;
  if case_matches columnId (MONDAY_STATUS_COL_ID env) then
    if truthy (get_opt (get_opt v "label") "text") then
      label <~ get v "label" ;;
      text <~ get label "text" ;;
      Ok (assign (js "status") text updates)
    else Ok updates
  else if case_matches columnId (MONDAY_PRIORITY_COL_ID env) then
    if truthy (get_opt (get_opt v "label") "text") then
      label <~ get v "label" ;;
      text <~ get label "text" ;;
      clean <~ cleanText text ;;
      Ok (assign (js "priority") clean updates)
    else Ok updates
  else if case_matches columnId (MONDAY_FILE_COL_ID env) then
    if truthy v then
      url <~ get v "url" ;;
      file_url <~ (if truthy url then Ok url
                   else text <~ get v "text" ;;
                        if truthy text then Ok text else get event "value") ;;
      text <~ get v "text" ;;
      Ok (assign (js "file_name") (js_or text (JStr (js "Project File")))
            (assign (js "file_url") file_url updates))
    else Ok updates
  else if case_matches columnId (MONDAY_DUEDATE_COL_ID env) then
    if truthy (get_opt v "date") then
      date <~ get v "date" ;;
      Ok (assign (js "due_date") date updates)
    else Ok updates
  else if case_matches columnId (MONDAY_GRANT_ACCESS_COL_ID env) then
    Ok (assign (js "grant_view")
          (JBool (strict_eq_true (get_opt v "checked")
                  || strict_eq_str (get_opt v "checked") (js "true")))
          updates)
  else if case_matches columnId (MONDAY_FEEDBACK_COL_ID env) then
    if truthy (get_opt v "text") then
      text <~ get v "text" ;;
      Ok (assign (js "feedback") text updates)
    else Ok updates
  else if case_matches columnId (MONDAY_NAME_COL_ID env) then
    if truthy (get_opt v "text") then
      text <~ get v "text" ;;
      Ok (assign (js "name") text updates)
    else Ok updates
  else Ok updates.

(** The two lookups: the row found, or [null]. *)
Definition find_project (pulseId : value) : M (S := S) value :=
  r <- query_maybeSingle (js "*") (js "monday_item_id") pulseId ;;
  if truthy (error r) then raise (Thrown (error r))
  else if negb (truthy (data r)) then
    r' <- query_maybeSingle (js "*") (js "id") pulseId ;;
    if truthy (error r') then raise (Thrown (error r'))
    else ret (data r')
  else ret (data r).

(** The body of the [try] block, from the credentials test to the
    success response. *)
Definition handler_try (req : Request) : M (S := S) Response :=
  if negb (truthy supabaseUrl) || negb (truthy supabaseServiceKey) then
    raise (Thrown (new_Error "Missing Supabase credentials"))
  else
    let payload := safeParse (body req) in
    event <- lift (get (js_or payload (JObj [])) "event") ;;
    let pulseId := get_opt event "pulseId" in
    if negb (truthy pulseId) then
      ret (respond 400
             (JObj [(js "error",
                     JStr (js "Invalid webhook payload - missing pulseId"))]))
    else
      foundProject <- find_project pulseId ;;
      if negb (truthy foundProject) then
        _ <- query_list (js "id, monday_item_id, name") ;;
        ret (respond 404
               (JObj [(js "error", JStr (js "Project not found"));
                      (js "pulseId", pulseId);
                      (js "message",
                       JStr (js "Check if monday_item_id is correctly stored in Supabase"))]))
      else
        let project := foundProject in
        _ <- lift (get project "id") ;;
        raw <- lift (get event "value") ;;
        let v := safeParse raw in
        updates <- lift (dispatch event v []) ;;
        _ <- match updates with
             | _ :: _ =>
                 project_id <- lift (get project "id") ;;
                 updateError <- query_update (JObj updates) (js "id") project_id ;;
                 if truthy updateError then raise (Thrown updateError)
                 else ret tt
             | [] => ret tt
             end ;;
        project_id <- lift (get project "id") ;;
        ret (respond 200
               (JObj [(js "success", JBool true);
                      (js "message", JStr (js "Webhook processed successfully"));
                      (js "projectId", project_id);
                      (js "updates", JObj updates)])).

(** [export default async function handler(req, res)]. *)
Definition handler (req : Request) : M (S := S) Response :=
  if str_eqb (method req) (js "OPTIONS") then
    ret (respond 200 (JObj [(js "ok", JBool true)]))
  else if truthy (get_opt (body req) "challenge") then
    challenge <- lift (get (body req) "challenge") ;;
    ret (respond 200 (JObj [(js "challenge", challenge)]))
  else if negb (str_eqb (method req) (js "POST")) then
    ret (respond 405 (JObj [(js "error", JStr (js "Method not allowed"))]))
  else
    try_catch (handler_try req)
      (fun err =>
         message <- lift (exn_message err) ;;
         ret (respond 500
                (JObj [(js "error",
                        js_or message (JStr (js "Internal Server Error")))]))).

End Handler.

Arguments Request number : clear implicits.
Arguments Response number : clear implicits.

End Webhook.

(* ===================================================================== *)
(** * A reference engine                                                  *)
(* ===================================================================== *)

(** An engine to run the handler on concrete requests: a number is kept
    as its JSON literal, and [JSON.parse] is a recursive-descent parser of
    the JSON grammar. *)
Module Reference.

Import Js.

Definition literal : Type := jsstring.

#[local] Abbreviation value := (JsVal literal).

Definition is_digit (c : Z) : bool := (48 <=? c) && (c <=? 57).

Definition is_json_space (c : Z) : bool :=
  (c =? 32) || (c =? 9) || (c =? 10) || (c =? 13).

Fixpoint skip_space (s : jsstring) : jsstring :=
  match s with
  | [] => []
  | c :: s' => if is_json_space c then skip_space s' else s
  end.

(** The leading digits and what follows them. *)
Fixpoint digits (s : jsstring) : jsstring * jsstring :=
  match s with
  | [] => ([], [])
  | c :: s' =>
      if is_digit c then let (d, r) := digits s' in (c :: d, r) else ([], s)
  end.

(** [- int frac? exp?], kept as written. *)
Definition parse_number (s : jsstring) : option (literal * jsstring) :=
  let (sign, s1) :=
    match s with
    | c :: r => if c =? 45 then ([45], r) else ([], s)
    | [] => ([], s)
    end in
  let (int, s2) :=
    match s1 with
    | c :: r => if c =? 48 then ([48], r) else digits s1
    | [] => ([], s1)
    end in
  match int with
  | [] => None
  | _ :: _ =>
      let frac :=
        match s2 with
        | c :: r =>
            if c =? 46 then
              match digits r with
              | ([], _) => None
              | (d, r') => Some (46 :: d, r')
              end
            else Some ([], s2)
        | [] => Some ([], s2)
        end in
      match frac with
      | None => None
      | Some (f, s3) =>
          let exp :=
            match s3 with
            | c :: r =>
                if (c =? 101) || (c =? 69) then
                  let (sg, r1) :=
                    match r with
                    | c' :: r' =>
                        if (c' =? 43) || (c' =? 45) then ([c'], r')
                        else ([], r)
                    | [] => ([], r)
                    end in
                  match digits r1 with
                  | ([], _) => None
                  | (d, r2) => Some (c :: sg ++ d, r2)
                  end
                else Some ([], s3)
            | [] => Some ([], s3)
            end in
          match exp with
          | None => None
          | Some (e, s4) => Some (sign ++ int ++ f ++ e, s4)
          end
      end
  end.

Definition hex_digit (c : Z) : option Z :=
  if is_digit c then Some (c - 48)
  else if (97 <=? c) && (c <=? 102) then Some (c - 87)
  else if (65 <=? c) && (c <=? 70) then Some (c - 55)
  else None.

Definition escape (c : Z) : option Z :=
  if (c =? 34) || (c =? 92) || (c =? 47) then Some c
  else if c =? 98 then Some 8
  else if c =? 102 then Some 12
  else if c =? 110 then Some 10
  else if c =? 114 then Some 13
  else if c =? 116 then Some 9
  else None.

(** The characters of a string, after its opening quote. *)
Fixpoint parse_chars (s : jsstring) (acc : jsstring)
  : option (jsstring * jsstring) :=
  match s with
  | [] => None
  | c :: r =>
      if c =? 34 then Some (rev acc, r)
      else if c =? 92 then
        match r with
        | [] => None
        | e :: r' =>
            if e =? 117 then
              match r' with
              | h1 :: h2 :: h3 :: h4 :: r'' =>
                  match hex_digit h1, hex_digit h2, hex_digit h3, hex_digit h4
                  with
                  | Some a, Some b, Some c', Some d =>
                      parse_chars r'' (a * 4096 + b * 256 + c' * 16 + d :: acc)
                  | _, _, _, _ => None
                  end
              | _ => None
              end
            else
              match escape e with
              | Some x => parse_chars r' (x :: acc)
              | None => None
              end
        end
      else if c <? 32 then None
      else parse_chars r (c :: acc)
  end.

Fixpoint starts_with (p s : jsstring) : option jsstring :=
  match p, s with
  | [], _ => Some s
  | x :: p', y :: s' => if x =? y then starts_with p' s' else None
  | _ :: _, [] => None
  end.

Fixpoint parse_value (fuel : nat) (s : jsstring) {struct fuel}
  : option (value * jsstring) :=
  match fuel with
  | O => None
  | S f =>
      match skip_space s with
      | [] => None
      | c :: r =>
          if c =? 123 then
            match skip_space r with
            | c' :: r' =>
                if c' =? 125 then Some (JObj [], r')
                else parse_members f (c' :: r') []
            | [] => None
            end
          else if c =? 91 then
            match skip_space r with
            | c' :: r' =>
                if c' =? 93 then Some (JArr [], r')
                else parse_elements f (c' :: r') []
            | [] => None
            end
          else if c =? 34 then
            match parse_chars r [] with
            | Some (str, r') => Some (JStr str, r')
            | None => None
            end
          else
            match starts_with (js "true") (c :: r) with
            | Some r' => Some (JBool true, r')
            | None =>
                match starts_with (js "false") (c :: r) with
                | Some r' => Some (JBool false, r')
                | None =>
                    match starts_with (js "null") (c :: r) with
                    | Some r' => Some (JNull, r')
                    | None =>
                        match parse_number (c :: r) with
                        | Some (n, r') => Some (JNum n, r')
                        | None => None
                        end
                    end
                end
            end
      end
  end

with parse_elements (fuel : nat) (s : jsstring) (acc : list value)
  {struct fuel} : option (value * jsstring) :=
  match fuel with
  | O => None
  | S f =>
      match parse_value f s with
      | None => None
      | Some (v, r) =>
          match skip_space r with
          | c :: r' =>
              if c =? 44 then parse_elements f r' (v :: acc)
              else if c =? 93 then Some (JArr (rev (v :: acc)), r')
              else None
          | [] => None
          end
      end
  end

with parse_members (fuel : nat) (s : jsstring)
  (acc : list (jsstring * value)) {struct fuel}
  : option (value * jsstring) :=
  match fuel with
  | O => None
  | S f =>
      match skip_space s with
      | c :: r =>
          if c =? 34 then
            match parse_chars r [] with
            | None => None
            | Some (key, r1) =>
                match skip_space r1 with
                | c1 :: r2 =>
                    if c1 =? 58 then
                      match parse_value f r2 with
                      | None => None
                      | Some (v, r3) =>
                          match skip_space r3 with
                          | c3 :: r4 =>
                              if c3 =? 44 then
                                parse_members f r4 (assign key v acc)
                              else if c3 =? 125 then
                                Some (JObj (assign key v acc), r4)
                              else None
                          | [] => None
                          end
                      end
                    else None
                | [] => None
                end
            end
          else None
      | [] => None
      end
  end.

(** The whole text is one value. *)
Definition parse (s : jsstring) : option value :=
  match parse_value (2 * List.length s + 2) s with
  | Some (v, r) =>
      match skip_space r with
      | [] => Some v
      | _ :: _ => None
      end
  | None => None
  end.

(** A literal is zero when its mantissa has no digit but [0]. *)
Fixpoint mantissa_nonzero (n : literal) : bool :=
  match n with
  | [] => false
  | c :: n' =>
      if (c =? 101) || (c =? 69) then false
      else ((49 <=? c) && (c <=? 57)) || mantissa_nonzero n'
  end.

#[export] Instance engine : Engine literal := {
  num_truthy := mantissa_nonzero;
  JSON_parse := parse;
  type_error_message := js "text.replace is not a function"
}.

(** JSON text written with single quotes for the double ones. *)
Definition json_text (s : string) : jsstring :=
  map (fun c => if c =? 39 then 34 else c) (js s).

End Reference.

(* ===================================================================== *)
(** * The vocabulary of the statements                                    *)
(* ===================================================================== *)

Module Statements.

Import Js Store Webhook.

Local Open Scope handler_scope.

Section Generic.

Context {number : Type} {engine : Engine number}.
Context {S : Type} {table : ProjectsTable (number := number) S}.

#[local] Abbreviation value := (JsVal number).
#[local] Abbreviation Props := (list (jsstring * value)).
#[local] Abbreviation Request := (Request number).
#[local] Abbreviation Response := (Response number).

Variable env : Env.

(** [const { event } = payload || {}] *)
Definition event_of (req : Request) : value :=
  get_opt (js_or (safeParse (body req)) (JObj [])) "event".

(** [event?.pulseId] *)
Definition pulseId_of (req : Request) : value :=
  get_opt (event_of req) "pulseId".

(** The store credentials are set. *)
Definition configured : Prop :=
  truthy (supabaseUrl env) = true /\ truthy (supabaseServiceKey env) = true.

(** A [POST] that is not the challenge handshake. *)
Definition event_post (req : Request) : Prop :=
  method req = js "POST" /\ truthy (get_opt (body req) "challenge") = false.

Definition first_lookup (pulseId : value) : Call number :=
  SelectMaybeSingle (js "*") (js "monday_item_id") pulseId.

Definition second_lookup (pulseId : value) : Call number :=
  SelectMaybeSingle (js "*") (js "id") pulseId.

(** The event of a non-challenge [POST] carries a [pulseId] and the
    lookups answer, without error, with the row [project]; [w1] is the
    world they leave. *)
Definition located (req : Request) (w : World number S) (project : value)
  (w1 : World number S) : Prop :=
  event_post req /\ configured /\
  truthy (pulseId_of req) = true /\
  find_project (pulseId_of req) w = (Ok project, w1) /\
  truthy project = true.

(** [v]: the value of the event after [safeParse]. *)
Definition value_of (req : Request) : value :=
  safeParse (get_opt (event_of req) "value").

(** The response of the success path. *)
Definition success (project : value) (updates : Props) : Response :=
  respond 200
    (JObj [(js "success", JBool true);
           (js "message", JStr (js "Webhook processed successfully"));
           (js "projectId", get_opt project "id");
           (js "updates", JObj updates)]).

(** The response of the [catch] clause to a thrown store error. *)
Definition server_error (e : value) : Response :=
  respond 500
    (JObj [(js "error",
            js_or (get_opt e "message") (JStr (js "Internal Server Error")))]).

(** The one update sent for a non-empty [updates]. *)
Definition update_call (project : value) (updates : Props) : Call number :=
  Update (JObj updates) (js "id") (get_opt project "id").

(** Sending the one update for a non-empty [updates], scoped by the [id]
    of the row: the answer of the store decides between success and a
    server error. *)
Definition persist (project : value) (updates : Props) (w1 : World number S)
  : Response * World number S :=
  let (e, s2) :=
    update_eq (JObj updates) (js "id") (get_opt project "id") (store w1) in
  (if truthy e then server_error e else success project updates,
   Build_World s2 (calls w1 ++ [update_call project updates])).

(** What the handler does once the [switch] has left [updates]. *)
Definition outcome (project : value) (updates : Props) (w1 : World number S)
  : Response * World number S :=
  match updates with
  | [] => (success project [], w1)
  | _ :: _ => persist project updates w1
  end.

Definition answer (o : Response * World number S)
  : Result number Response * World number S :=
  (Ok (fst o), snd o).


Definition listing : Call number := SelectList (js "id, monday_item_id, name").


(** [event.columnId] *)
Definition columnId_of (req : Request) : value :=
  get_opt (event_of req) "columnId".

(** The case labels, in the order of the [switch]. *)
Definition column_ids : list (option jsstring) :=
  [ MONDAY_STATUS_COL_ID env; MONDAY_PRIORITY_COL_ID env;
    MONDAY_FILE_COL_ID env; MONDAY_DUEDATE_COL_ID env;
    MONDAY_GRANT_ACCESS_COL_ID env; MONDAY_FEEDBACK_COL_ID env;
    MONDAY_NAME_COL_ID env ].

(** One identifier per recognised attribute: no two labels coincide. *)
Definition distinct_columns : Prop := NoDup column_ids.


End Generic.

Section OverMemory.

Context {number : Type}.

#[local] Abbreviation value := (JsVal number).
#[local] Abbreviation Props := (list (jsstring * value)).
#[local] Abbreviation Db := (Db number).


End OverMemory.

End Statements.

(* ===================================================================== *)
(** * A configuration, a table and some requests                          *)
(* ===================================================================== *)

Module Scenario.

Import Js Store Webhook Statements Reference.

#[local] Abbreviation value := (JsVal literal).

(** A complete configuration. *)
Definition env0 : Env := {|
  SUPABASE_URL := Some (js "https://quickcut.supabase.co");
  SUPABASE_SERVICE_ROLE_KEY := Some (js "service-role-key");
  MONDAY_NAME_COL_ID := Some (js "name");
  MONDAY_STATUS_COL_ID := Some (js "status");
  MONDAY_PRIORITY_COL_ID := Some (js "priority_1");
  MONDAY_FILE_COL_ID := Some (js "files");
  MONDAY_DUEDATE_COL_ID := Some (js "date4");
  MONDAY_GRANT_ACCESS_COL_ID := Some (js "checkbox");
  MONDAY_FEEDBACK_COL_ID := Some (js "long_text")
|}.

Definition row (id : string) (monday_item_id : value) (name : string)
  : Row literal :=
  [ (js "id", JStr (js id));
    (js "user_id", JStr (js "7a1e0c52-0000-4000-8000-00000000000a"));
    (js "monday_item_id", monday_item_id);
    (js "name", JStr (js name));
    (js "status", JStr (js "Not Started"));
    (js "priority", JStr (js "Urgent"));
    (js "due_date", JNull);
    (js "file_url", JNull);
    (js "file_name", JNull);
    (js "grant_view", JBool false);
    (js "created_at", JStr (js "2025-01-10T09:00:00+00:00"));
    (js "updated_at", JStr (js "2025-01-10T09:00:00+00:00")) ].

(** A project created through the board, and one that never got its
    reference. *)
Definition wedding : Row literal :=
  row "c0a80101-0000-4000-8000-000000000001" (JStr (js "9001")) "Wedding film".

Definition trailer : Row literal :=
  row "c0a80101-0000-4000-8000-000000000002" JNull "Trailer".

Definition db0 : Db literal := {|
  projects := [wedding; trailer];
  now := JStr (js "2025-03-01T12:00:00+00:00")
|}.

Definition w0 : World literal (Db literal) := Build_World db0 [].

(** A column-change event as the board posts it. *)
Definition change (pulseId columnId : string) (v : value) : Request literal :=
  {| method := js "POST";
     body := JObj [(js "event",
                    JObj [(js "type", JStr (js "update_column_value"));
                          (js "pulseId", JStr (js pulseId));
                          (js "columnId", JStr (js columnId));
                          (js "value", v)])] |}.


(** The handshake of the board, sent with method [m]. *)
Definition handshake (m : string) : Request literal :=
  {| method := js m;
     body := JObj [(js "challenge", JStr (js "3eZbrw1aBm2rZgRNFdxV2595E9CY"))] |}.

(** The identifiers of the two rows. *)
Definition wedding_id : value :=
  JStr (js "c0a80101-0000-4000-8000-000000000001").






(** A file column whose value is a bare link, not JSON. *)
Definition link : jsstring := js "https://cdn.quickcut.pro/wedding-v2.mp4".


(** The status example of the specification, for the project that has no
    reference: the board sends its [id]. *)
Definition completed_value : value :=
  JObj [(js "label", JObj [(js "text", JStr (js "Completed"))])].


Definition status_completed : list (jsstring * value) :=
  [(js "status", JStr (js "Completed"))].

(** The status example, for the project known by its reference. *)
Definition wedding_done : Request literal :=
  change "9001" "status" completed_value.


End Scenario.

(* ===================================================================== *)
(** * More vocabulary                                                     *)
(* ===================================================================== *)

Module MoreStatements.

Import Js Store Webhook Statements.

(** A string that does not start with white space. *)
Definition edge_free (s : jsstring) : Prop :=
  match s with
  | [] => True
  | c :: _ => is_white_space c = false
  end.

Section Rows.

Context {number : Type}.

#[local] Abbreviation value := (JsVal number).
#[local] Abbreviation Props := (list (jsstring * value)).
#[local] Abbreviation Row := (Row number).




End Rows.

End MoreStatements.

(* ===================================================================== *)
(** * The project creation handler                                        *)
(* ===================================================================== *)

(** [api/create-project.ts]: the handler that inserts a row of the
    [projects] table. Its client is built when the module is loaded; the
    handler itself sends at most one insert. *)
Module CreateProject.

Import Js Webhook.

Section Handler.

Context {number : Type} {engine : Engine number}.

#[local] Abbreviation value := (JsVal number).
#[local] Abbreviation Props := (list (jsstring * value)).
#[local] Abbreviation Request := (Request number).
#[local] Abbreviation Response := (Response number).

(** [await supabase.from('projects').insert(row)]: the [error] it
    resolves to, and the next state of the store. *)
Class ProjectsInsert (S : Type) : Type := {
  insert_row : value -> S -> value * S
}.

Context {S : Type} {table : ProjectsInsert S}.

(** The store and the rows sent to it for insertion, oldest first. *)
Record World : Type := {
  store : S;
  inserts : list value
}.

(** [res.status(code).json(payload)]: this handler sets no header. *)
Definition reply (code : Z) (payload : value) : Response :=
  {| status := code; headers := []; json := payload |}.

(** [const { user_id, name, monday_item_id, priority, due_date, file_url,
    file_name } = req.body], then the object literal handed to [insert]:
    destructuring [undefined] or [null] throws. *)
Definition new_row (body : value) : Result number Props :=
  rbind (get body "user_id") (fun user_id =>
  rbind (get body "name") (fun name =>
  rbind (get body "monday_item_id") (fun monday_item_id =>
  rbind (get body "priority") (fun priority =>
  rbind (get body "due_date") (fun due_date =>
  rbind (get body "file_url") (fun file_url =>
  rbind (get body "file_name") (fun file_name =>
  Ok [ (js "user_id", user_id);
       (js "name", name);
       (js "status", JStr (js "Not Started"));
       (js "priority", priority);
       (js "monday_item_id", monday_item_id);
       (js "due_date", due_date);
       (js "file_url", file_url);
       (js "file_name", file_name) ]))))))).

(** The [catch (err)] clause: [{ error: err.message }], status 500. *)
Definition on_error (err : Exn number) (w : World)
  : Result number Response * World :=
  match exn_message err with
  | Ok message => (Ok (reply 500 (JObj [(js "error", message)])), w)
  | Throw e => (Throw e, w)
  end.

(** [export default async function handler(req, res)]. *)
Definition handler (req : Request) (w : World)
  : Result number Response * World :=
  if negb (str_eqb (method req) (js "POST")) then
    (Ok (reply 405 (JObj [(js "error", JStr (js "Method not allowed"))])), w)
  else
    match new_row (body req) with
    | Throw e => on_error e w
    | Ok row =>
        let (error, s') := insert_row (JObj row) (store w) in
        let w' := {| store := s'; inserts := inserts w ++ [JObj row] |} in
        if truthy error then on_error (Thrown error) w'
        else (Ok (reply 200 (JObj [(js "success", JBool true)])), w')
    end.

End Handler.

Arguments World number S : clear implicits.
Arguments Build_World {number S} _ _.

End CreateProject.

(* ===================================================================== *)
(** * The board service of the client                                     *)
(* ===================================================================== *)

(** [MondayService] and [createMondayService]: the requests the client
    sends to the board. A request is recorded by its variables, before
    they are serialized; what [fetch] resolves to is given. *)
Module Monday.

Import Js Webhook.

(** [import.meta.env], as far as the service reads it. *)
Record MetaEnv : Type := {
  MONDAY_NAME_COL_ID : option jsstring;
  MONDAY_STATUS_COL_ID : option jsstring;
  MONDAY_PRIORITY_COL_ID : option jsstring;
  MONDAY_FILE_COL_ID : option jsstring;
  MONDAY_DUEDATE_COL_ID : option jsstring;
  VITE_MONDAY_API_KEY : option jsstring;
  VITE_MONDAY_BOARD_ID : option jsstring;
  VITE_MONDAY_GROUP_ID : option jsstring
}.

(** [x || 'd'] for a variable of the environment. *)
Definition or_default (x : option jsstring) (d : string) : jsstring :=
  match x with
  | Some (c :: s) => c :: s
  | _ => js d
  end.

(** [private columns]. *)
Record Columns : Type := {
  name : jsstring;
  status : jsstring;
  priority : jsstring;
  file : jsstring;
  dueDate : jsstring
}.

Definition columns_of (env : MetaEnv) : Columns := {|
  name := or_default (MONDAY_NAME_COL_ID env) "name";
  status := or_default (MONDAY_STATUS_COL_ID env) "project_status";
  priority := or_default (MONDAY_PRIORITY_COL_ID env) "priority__1";
  file := or_default (MONDAY_FILE_COL_ID env) "link__1";
  dueDate := or_default (MONDAY_DUEDATE_COL_ID env) "date"
|}.

Record MondayService : Type := {
  apiKey : jsstring;
  boardId : jsstring;
  groupId : jsstring;
  columns : Columns
}.

(** A variable that is set and not empty. *)
Definition given (x : option jsstring) : option jsstring :=
  match x with
  | Some (c :: s) => Some (c :: s)
  | _ => None
  end.

(** [createMondayService]: [null] unless the three credentials are
    given. *)
Definition createMondayService (env : MetaEnv) : option MondayService :=
  match given (VITE_MONDAY_API_KEY env), given (VITE_MONDAY_BOARD_ID env),
        given (VITE_MONDAY_GROUP_ID env) with
  | Some key, Some board, Some group =>
      Some {| apiKey := key; boardId := board; groupId := group;
              columns := columns_of env |}
  | _, _, _ => None
  end.

Section Requests.

Context {number : Type} {engine : Engine number}.

#[local] Abbreviation value := (JsVal number).
#[local] Abbreviation Props := (list (jsstring * value)).

(** The conversion to a string of a template literal. *)
Variable to_String : value -> jsstring.

(** [new Error(message)] *)
Definition error_with (message : jsstring) : value :=
  JObj [(js "message", JStr message)].

(** What [await fetch(...)] gives: a rejection, or a response with its
    [ok] flag, its [statusText] and what [await response.json()] gives. *)
Inductive Fetched : Type :=
| Rejected (e : value)
| Responded (ok : bool) (statusText : jsstring) (body : Result number value).

(** [v[0]] *)
Definition item0 (v : value) : Result number value :=
  match v with
  | JUndefined | JNull => Throw TypeError
  | JArr (x :: _) => Ok x
  | JStr (c :: _) => Ok (JStr [c])
  | JObj ps => Ok (lookup (js "0") ps)
  | _ => Ok JUndefined
  end.

(** [makeRequest], once the request is sent. *)
Definition makeRequest (f : Fetched) : Result number value :=
  match f with
  | Rejected e => Throw (Thrown e)
  | Responded ok statusText body =>
      if negb ok then
        Throw (Thrown (error_with (js "Monday.com API error: " ++ statusText)))
      else
        rbind body (fun data =>
        rbind (get data "errors") (fun errors =>
        if truthy errors then
          rbind (item0 errors) (fun first =>
          rbind (get first "message") (fun message =>
          Throw (Thrown (error_with
                           (js "Monday.com API error: " ++ to_String message)))))
        else get data "data"))
  end.

(** [addUpdate]: [result.create_update.id]. *)
Definition addUpdate (f : Fetched) : Result number value :=
  rbind (makeRequest f) (fun result =>
  rbind (get result "create_update") (fun create_update =>
  get create_update "id")).

(** [updateItem]: the error of the request is logged and thrown again. *)
Definition updateItem (f : Fetched) : Result number value :=
  rbind (makeRequest f) (fun _ => Ok JUndefined).

(** The [columnValues] object [createItem] builds from [projectData]. *)
Definition column_values (c : Columns) (projectData : value) : Props :=
  let columnValues := [] in
  let columnValues :=
    if truthy (get_opt projectData "status") && negb (str_eqb (status c) [])
    then assign (status c)
           (JObj [(js "label", get_opt projectData "status")]) columnValues
    else columnValues in
  let columnValues :=
    if truthy (get_opt projectData "priority")
       && negb (str_eqb (priority c) [])
    then assign (priority c)
           (JObj [(js "label", get_opt projectData "priority")]) columnValues
    else columnValues in
  let columnValues :=
    if truthy (get_opt projectData "dueDate") && negb (str_eqb (dueDate c) [])
    then assign (dueDate c)
           (JObj [(js "date", get_opt projectData "dueDate")]) columnValues
    else columnValues in
  if truthy (get_opt projectData "fileUrl") && negb (str_eqb (file c) [])
  then assign (file c)
         (JObj [(js "url", get_opt projectData "fileUrl");
                (js "text", js_or (get_opt projectData "fileName")
                              (JStr (js "Project File")))])
         columnValues
  else columnValues.

End Requests.

End Monday.

(* ===================================================================== *)
(** * The project page: feedback and approval                             *)
(* ===================================================================== *)

(** [handleSubmitFeedback] and [handleApprove] of [ProjectView], with
    [loadFeedback] and [loadProject]. The signed-in [user] comes from the
    authentication context; what the board and the store answer is
    given. *)
Module ProjectView.

Import Js Store Webhook Monday.

Section Handlers.

Context {number : Type} {engine : Engine number}.

#[local] Abbreviation value := (JsVal number).

Variable to_String : value -> jsstring.

(** The state of the component the two handlers read and set. *)
Record State : Type := {
  project : value;
  feedbackList : value;
  newFeedback : jsstring;
  loading : bool;
  submitting : bool;
  approving : bool;
  error : value
}.

Definition set_project (x : value) (st : State) : State :=
  {| project := x; feedbackList := feedbackList st;
     newFeedback := newFeedback st; loading := loading st;
     submitting := submitting st; approving := approving st;
     error := error st |}.

Definition set_feedbackList (x : value) (st : State) : State :=
  {| project := project st; feedbackList := x;
     newFeedback := newFeedback st; loading := loading st;
     submitting := submitting st; approving := approving st;
     error := error st |}.

Definition set_newFeedback (x : jsstring) (st : State) : State :=
  {| project := project st; feedbackList := feedbackList st;
     newFeedback := x; loading := loading st;
     submitting := submitting st; approving := approving st;
     error := error st |}.

Definition set_loading (x : bool) (st : State) : State :=
  {| project := project st; feedbackList := feedbackList st;
     newFeedback := newFeedback st; loading := x;
     submitting := submitting st; approving := approving st;
     error := error st |}.

Definition set_submitting (x : bool) (st : State) : State :=
  {| project := project st; feedbackList := feedbackList st;
     newFeedback := newFeedback st; loading := loading st;
     submitting := x; approving := approving st;
     error := error st |}.

Definition set_approving (x : bool) (st : State) : State :=
  {| project := project st; feedbackList := feedbackList st;
     newFeedback := newFeedback st; loading := loading st;
     submitting := submitting st; approving := x;
     error := error st |}.

Definition set_error (x : value) (st : State) : State :=
  {| project := project st; feedbackList := feedbackList st;
     newFeedback := newFeedback st; loading := loading st;
     submitting := submitting st; approving := approving st;
     error := x |}.

(** What the handlers send, to the board and to the store. *)
Inductive Effect : Type :=
| AddUpdate (itemId : value) (body : jsstring)
| UpdateItem (itemId : value) (columnValues : value)
| InsertFeedback (row : value)
| SelectFeedback (projectId : jsstring)
| UpdateProject (payload : value) (projectId : jsstring)
| SelectProject (projectId : jsstring).

(** What comes back: from the board, and from the store for the insert
    of the feedback, the list of the feedback, the update of the project
    and the select of the project. *)
Record Answers : Type := {
  board : Fetched (number := number);
  inserted : value;
  listed : QueryResult number;
  updated : value;
  selected : QueryResult number
}.

Variable env : MetaEnv.
Variable user : value.
Variable projectId : jsstring.
Variable answers : Answers.

(** [loadFeedback]: an error of the store is logged and the list is
    kept. *)
Definition loadFeedback (st : State) : State * list Effect :=
  (if truthy (Store.error (listed answers)) then st
   else set_feedbackList (js_or (data (listed answers)) (JArr [])) st,
   [SelectFeedback projectId]).

(** [loadProject]: an error of the store is logged and the project is
    kept; [loading] is reset either way. *)
Definition loadProject (st : State) : State * list Effect :=
  (set_loading false
     (if truthy (Store.error (selected answers)) then st
      else set_project (data (selected answers)) st),
   [SelectProject projectId]).

(** The [try] block of [handleSubmitFeedback]. *)
Definition try_submit (st : State)
  : Result number unit * State * list Effect :=
  match
    match createMondayService env with
    | None => Ok (JNull, [])
    | Some _ =>
        rbind (get (project st) "monday_item_id") (fun itemId =>
        if truthy itemId then
          Ok (match addUpdate to_String (board answers) with
              | Ok id => id
              | Throw _ => JNull
              end,
              [AddUpdate itemId (trim (newFeedback st))])
        else Ok (JNull, []))
    end
  with
  | Throw e => (Throw e, st, [])
  | Ok (mondayFeedbackId, sent) =>
      match get user "id" with
      | Throw e => (Throw e, st, sent)
      | Ok user_id =>
          let row :=
            JObj [(js "project_id", JStr projectId);
                  (js "user_id", user_id);
                  (js "message", JStr (newFeedback st));
                  (js "monday_feedback_id", mondayFeedbackId)] in
          if truthy (inserted answers) then
            (Throw (Thrown (inserted answers)), st,
             sent ++ [InsertFeedback row])
          else
            let (st', listing) := loadFeedback (set_newFeedback [] st) in
            (Ok tt, st', sent ++ [InsertFeedback row] ++ listing)
      end
  end.

(** [catch (err) { setError(err.message || fallback) }] and the
    [finally] that follows it. *)
Definition settle (fallback : string) (finally : State -> State)
  (r : Result number unit * State * list Effect)
  : Result number unit * State * list Effect :=
  match r with
  | (Ok u, st, sent) => (Ok u, finally st, sent)
  | (Throw e, st, sent) =>
      match exn_message e with
      | Ok message =>
          (Ok tt,
           finally (set_error (js_or message (JStr (js fallback))) st), sent)
      | Throw e' => (Throw e', finally st, sent)
      end
  end.

(** [handleSubmitFeedback]. *)
Definition handleSubmitFeedback (st : State)
  : Result number unit * State * list Effect :=
  if negb (truthy user) || negb (truthy (project st))
     || str_eqb (trim (newFeedback st)) []
  then (Ok tt, st, [])
  else
    settle "Failed to submit feedback" (set_submitting false)
      (try_submit (set_submitting true (set_error (JStr []) st))).

(** The [try] block of [handleApprove]. *)
Definition try_approve (st : State)
  : Result number unit * State * list Effect :=
  let update :=
    UpdateProject (JObj [(js "status", JStr (js "Completed"))]) projectId in
  if truthy (updated answers) then
    (Throw (Thrown (updated answers)), st, [update])
  else
    match
      match createMondayService env with
      | None => Ok []
      | Some _ =>
          rbind (get (project st) "monday_item_id") (fun itemId =>
          if truthy itemId then
            Ok [UpdateItem itemId
                  (JObj [(js "status",
                          JObj [(js "label", JStr (js "Completed"))])])]
          else Ok [])
      end
    with
    | Throw e => (Throw e, st, [update])
    | Ok sent =>
        let (st', selecting) := loadProject st in
        (Ok tt, st', [update] ++ sent ++ selecting)
    end.

(** [handleApprove]. *)
Definition handleApprove (st : State)
  : Result number unit * State * list Effect :=
  if negb (truthy (project st)) then (Ok tt, st, [])
  else
    settle "Failed to approve project" (set_approving false)
      (try_approve (set_approving true (set_error (JStr []) st))).

End Handlers.

End ProjectView.

(* ===================================================================== *)
(** * The pages of the client                                             *)
(* ===================================================================== *)

(** [AppContent]: which page is shown, and where its callbacks lead. *)
Module App.

Import Js.

(** [type Page] *)
Inductive Page : Type :=
| login
| signup
| forgot_password
| dashboard
| new_project
| project_view.

(** The two states of the component. *)
Record State : Type := {
  currentPage : Page;
  selectedProjectId : option jsstring
}.

(** [useState<Page>('login')], [useState<string | null>(null)]. *)
Definition initial : State :=
  {| currentPage := login; selectedProjectId := None |}.

(** What [AppContent] returns. *)
Inductive Screen : Type :=
| Spinner
| SignUp
| ForgotPassword
| Login
| NewProject
| ProjectView (projectId : jsstring)
| Dashboard.

(** [AppContent], given the [loading] flag of the authentication context
    and whether it has a [user]. *)
Definition AppContent (loading user : bool) (st : State) : Screen :=
  if loading then Spinner
  else if negb user then
    match currentPage st with
    | signup => SignUp
    | forgot_password => ForgotPassword
    | _ => Login
    end
  else
    match currentPage st, selectedProjectId st with
    | new_project, _ => NewProject
    | project_view, Some (c :: id) => ProjectView (c :: id)
    | _, _ => Dashboard
    end.

(** The callbacks the pages are given. *)
Inductive Callback : Type :=
| onSignInClick
| onBackClick
| onSignUpClick
| onForgotPasswordClick
| onSuccess
| onNewProjectClick
| onProjectClick (projectId : jsstring).

(** The callback [c] of the page [screen], run in state [st]: the next
    state, or [None] when the page has no such callback. *)
Definition run (screen : Screen) (c : Callback) (st : State) : option State :=
  let go page :=
    Some {| currentPage := page; selectedProjectId := selectedProjectId st |} in
  match screen, c with
  | SignUp, onSignInClick => go login
  | ForgotPassword, onBackClick => go login
  | Login, onSignUpClick => go signup
  | Login, onForgotPasswordClick => go forgot_password
  | NewProject, onBackClick => go dashboard
  | NewProject, onSuccess => go dashboard
  | ProjectView _, onBackClick => go dashboard
  | Dashboard, onNewProjectClick => go new_project
  | Dashboard, onProjectClick projectId =>
      Some {| currentPage := project_view;
              selectedProjectId := Some projectId |}
  | _, _ => None
  end.

(** The states the component can be in: a callback of the page on
    screen has run, whatever the authentication context said then. *)
Inductive reachable : State -> Prop :=
| reach_initial : reachable initial
| reach_step (st st' : State) (loading user : bool) (c : Callback) :
    reachable st ->
    run (AppContent loading user st) c st = Some st' ->
    reachable st'.

End App.

(** [handleSubmit] of the [SignUp] page. *)
Module SignUp.

Import Js.

Section Handler.

Context {number : Type} {engine : Engine number}.

#[local] Abbreviation value := (JsVal number).

(** The state [handleSubmit] sets. *)
Record State : Type := {
  loading : bool;
  error : value;
  success : bool
}.

(** [handleSubmit], given what [await signUp(email, password, fullName)]
    resolves to; with the final state, whether [signUp] was called. *)
Definition handleSubmit (password confirmPassword : jsstring)
  (signUp : Result number unit) (st : State)
  : Result number unit * State * bool :=
  let st := {| loading := loading st; error := JStr []; success := success st |} in
  if negb (str_eqb password confirmPassword) then
    (Ok tt,
     {| loading := loading st; error := JStr (js "Passwords do not match");
        success := success st |}, false)
  else if (Z.of_nat (List.length password) <? 6)%Z then
    (Ok tt,
     {| loading := loading st;
        error := JStr (js "Password must be at least 6 characters");
        success := success st |}, false)
  else
    match signUp with
    | Ok _ =>
        (Ok tt, {| loading := false; error := error st; success := true |},
         true)
    | Throw e =>
        match exn_message e with
        | Ok message =>
            (Ok tt,
             {| loading := false;
                error := js_or message (JStr (js "Failed to create account"));
                success := success st |}, true)
        | Throw e' =>
            (Throw e',
             {| loading := false; error := error st; success := success st |},
             true)
        end
    end.

End Handler.

End SignUp.

(* ===================================================================== *)
(** * Vocabulary for the project page                                     *)
(* ===================================================================== *)

Module ClientStatements.

Import Js Store Webhook.

Section ProjectPage.

Context {number : Type} {engine : Engine number}.

#[local] Abbreviation value := (JsVal number).
#[local] Abbreviation State := (ProjectView.State (number := number)).
#[local] Abbreviation Effect := (ProjectView.Effect (number := number)).

Variable to_String : value -> jsstring.
Variable env : Monday.MetaEnv.
Variable user : value.
Variable projectId : jsstring.
Variable answers : ProjectView.Answers (number := number).

(** Whether the board is written to: the service is configured and the
    project has a reference. *)
Definition on_board (st : State) : bool :=
  match Monday.createMondayService env with
  | Some _ => truthy (get_opt (ProjectView.project st) "monday_item_id")
  | None => false
  end.

(** The row of the feedback table the page inserts. *)
Definition feedback_row (st : State) : value :=
  JObj [(js "project_id", JStr projectId);
        (js "user_id", get_opt user "id");
        (js "message", JStr (ProjectView.newFeedback st));
        (js "monday_feedback_id",
         if on_board st then
           match Monday.addUpdate to_String (ProjectView.board answers) with
           | Ok id => id
           | Throw _ => JNull
           end
         else JNull)].

(** The update the board is sent for a feedback. *)
Definition board_update (st : State) : list Effect :=
  if on_board st
  then [ProjectView.AddUpdate
          (get_opt (ProjectView.project st) "monday_item_id")
          (trim (ProjectView.newFeedback st))]
  else [].

End ProjectPage.

End ClientStatements.

(* ===================================================================== *)
(** * More inputs                                                         *)
(* ===================================================================== *)

(** Requests, stores and answers the properties below are run on, under
    the reference engine. *)
Module MoreScenario.

Import Js Store Webhook Statements Reference Scenario.

#[local] Abbreviation value := (JsVal literal).

(** ** For the webhook *)

(** A request that is neither a pre-flight nor an event. *)
Definition probe : Request literal :=
  {| method := js "DELETE"; body := JUndefined |}.

(** Configurations with the service key, or the status column, unset. *)
Definition env_without_key : Env := {|
  SUPABASE_URL := SUPABASE_URL env0;
  SUPABASE_SERVICE_ROLE_KEY := None;
  MONDAY_NAME_COL_ID := MONDAY_NAME_COL_ID env0;
  MONDAY_STATUS_COL_ID := MONDAY_STATUS_COL_ID env0;
  MONDAY_PRIORITY_COL_ID := MONDAY_PRIORITY_COL_ID env0;
  MONDAY_FILE_COL_ID := MONDAY_FILE_COL_ID env0;
  MONDAY_DUEDATE_COL_ID := MONDAY_DUEDATE_COL_ID env0;
  MONDAY_GRANT_ACCESS_COL_ID := MONDAY_GRANT_ACCESS_COL_ID env0;
  MONDAY_FEEDBACK_COL_ID := MONDAY_FEEDBACK_COL_ID env0
|}.


(** The error of a store that cannot be reached. *)
Definition outage : value :=
  JObj [(js "message", JStr (js "connection refused"))].

(** A store that holds no project and answers as many lookups as its
    state counts before it is out of reach. *)
#[export] Instance Unreliable : ProjectsTable (number := literal) nat := {
  select_eq_maybeSingle _ _ _ n :=
    match n with
    | O => ({| data := JNull; error := outage |}, O)
    | S n' => ({| data := JNull; error := JNull |}, n')
    end;
  select_list _ n := ({| data := JArr []; error := JNull |}, n);
  update_eq _ _ _ n := (JNull, n)
}.



Definition renamed : Request literal :=
  change "9001" "name" (JObj [(js "text", JStr (js "Wedding film v2"))]).




(** The status example, as the text of the whole body. *)
Definition wedding_done_text : jsstring :=
  json_text
    "{'event':{'type':'update_column_value','pulseId':'9001','columnId':'status','value':{'label':{'text':'Completed'}}}}".


Definition handshake_text : jsstring :=
  json_text "{'challenge':'3eZbrw1aBm2rZgRNFdxV2595E9CY'}".



(** The character U+1D400, as its two surrogates. *)
Definition bold_A : jsstring := [0xD835; 0xDC00].

(** ** For the project creation handler *)

(** A [projects] table that enforces its two [NOT NULL] columns without
    default. *)
Definition missing (v : value) : bool :=
  match v with
  | JUndefined | JNull => true
  | _ => false
  end.

#[export] Instance NotNull
  : CreateProject.ProjectsInsert (number := literal) (list value) := {
  CreateProject.insert_row row rows :=
    if missing (get_opt row "user_id") then
      (store_error "null value in column user_id violates not-null constraint",
       rows)
    else if missing (get_opt row "name") then
      (store_error "null value in column name violates not-null constraint",
       rows)
    else (JNull, rows ++ [row])
}.

Definition empty_table : CreateProject.World literal (list value) :=
  CreateProject.Build_World [] [].

(** A creation request that asks for a status of its own, one without a
    name, and one without a body. *)
Definition order : Request literal :=
  {| method := js "POST";
     body := JObj [(js "user_id",
                    JStr (js "7a1e0c52-0000-4000-8000-00000000000a"));
                   (js "name", JStr (js "Teaser"));
                   (js "status", JStr (js "Completed"));
                   (js "priority", JStr (js "Standard"));
                   (js "monday_item_id", JStr (js "9003"))] |}.

Definition nameless : Request literal :=
  {| method := js "POST";
     body := JObj [(js "user_id",
                    JStr (js "7a1e0c52-0000-4000-8000-00000000000a"))] |}.

Definition bodiless : Request literal :=
  {| method := js "POST"; body := JUndefined |}.

(** ** For the client *)

(** The conversion of a template literal, a number being given by its
    canonical text. *)
Fixpoint to_text (v : value) : jsstring :=
  match v with
  | JUndefined => js "undefined"
  | JNull => js "null"
  | JBool true => js "true"
  | JBool false => js "false"
  | JNum n => n
  | JStr s => s
  | JArr items =>
      (fix join (l : list value) : jsstring :=
         match l with
         | [] => []
         | x :: l' =>
             (if missing x then [] else to_text x)
             ++ match l' with
                | [] => []
                | _ => js "," ++ join l'
                end
         end) items
  | JObj _ => js "[object Object]"
  end.

(** The client configured for the columns of [env0]. *)
Definition meta0 : Monday.MetaEnv := {|
  Monday.MONDAY_NAME_COL_ID := Some (js "name");
  Monday.MONDAY_STATUS_COL_ID := Some (js "status");
  Monday.MONDAY_PRIORITY_COL_ID := Some (js "priority_1");
  Monday.MONDAY_FILE_COL_ID := Some (js "files");
  Monday.MONDAY_DUEDATE_COL_ID := Some (js "date4");
  Monday.VITE_MONDAY_API_KEY := Some (js "api-key");
  Monday.VITE_MONDAY_BOARD_ID := Some (js "1234567890");
  Monday.VITE_MONDAY_GROUP_ID := Some (js "topics")
|}.

(** What the new-project form hands to [createItem]. *)
Definition teaser : value :=
  JObj [(js "name", JStr (js "Teaser"));
        (js "status", JStr (js "Not Started"));
        (js "priority", JStr (js "Standard"));
        (js "dueDate", JStr (js "2025-04-01"));
        (js "fileUrl", JStr link)].

(** Answers of the board: an update created, and the network down. *)
Definition created : Monday.Fetched (number := literal) :=
  Monday.Responded true (js "OK")
    (Ok (JObj [(js "data",
                JObj [(js "create_update",
                       JObj [(js "id", JStr (js "5550001"))])])])).

Definition unreachable : Monday.Fetched (number := literal) :=
  Monday.Rejected (Monday.error_with (js "Failed to fetch")).

(** The signed-in user and the page of [wedding], a feedback typed. *)
Definition viewer : value :=
  JObj [(js "id", JStr (js "7a1e0c52-0000-4000-8000-00000000000a"))].

Definition wedding_page (typed : string)
  : ProjectView.State (number := literal) := {|
  ProjectView.project := JObj wedding;
  ProjectView.feedbackList := JArr [];
  ProjectView.newFeedback := js typed;
  ProjectView.loading := false;
  ProjectView.submitting := false;
  ProjectView.approving := false;
  ProjectView.error := JStr []
|}.

Definition refusal : value :=
  store_error "new row violates row-level security policy".

Definition wedding_approved : Row literal :=
  assign (js "status") (JStr (js "Completed")) wedding.

(** The board out of reach and the store accepting everything; and the
    board fine with the store refusing every write. *)
Definition board_down : ProjectView.Answers (number := literal) := {|
  ProjectView.board := unreachable;
  ProjectView.inserted := JNull;
  ProjectView.listed :=
    {| data := JArr [JObj [(js "message", JStr (js " Love the intro "))]];
       error := JNull |};
  ProjectView.updated := JNull;
  ProjectView.selected := {| data := JObj wedding_approved; error := JNull |}
|}.

Definition store_refusing : ProjectView.Answers (number := literal) := {|
  ProjectView.board := created;
  ProjectView.inserted := refusal;
  ProjectView.listed := {| data := JNull; error := refusal |};
  ProjectView.updated := refusal;
  ProjectView.selected := {| data := JNull; error := refusal |}
|}.

(** The pages after a signed-in click on a project, and after a look at
    the sign-up page. *)
Definition opened : App.State := {|
  App.currentPage := App.project_view;
  App.selectedProjectId := Some (js "c0a80101-0000-4000-8000-000000000001")
|}.

Definition hesitating : App.State := {|
  App.currentPage := App.signup;
  App.selectedProjectId := Some (js "c0a80101-0000-4000-8000-000000000001")
|}.

End MoreScenario.

(* ===================================================================== *)
(** * Properties of the handler, for every engine and every store         *)
(* ===================================================================== *)

Module WebhookFacts.

Import Js Store Webhook Statements.

Local Open Scope handler_scope.

(** ** Strings and values *)

Lemma str_eqb_refl (a : jsstring) : str_eqb a a = true.
Proof.
  induction a as [|x a IH]; simpl; [reflexivity|].
  now rewrite Z.eqb_refl, IH.
Qed.

Lemma str_eqb_eq (a b : jsstring) : str_eqb a b = true <-> a = b.
Proof.
  split.
  - revert b; induction a as [|x a IH]; intros [|y b] H; simpl in H;
      try discriminate; [reflexivity|].
    apply andb_true_iff in H as [Hx Hab].
    apply Z.eqb_eq in Hx. apply IH in Hab. now subst.
  - intros ->. apply str_eqb_refl.
Qed.

Lemma str_eqb_neq (a b : jsstring) : str_eqb a b = false <-> a <> b.
Proof.
  destruct (str_eqb a b) eqn:E.
  - apply str_eqb_eq in E. split; [discriminate | congruence].
  - split; [|reflexivity]. intros _ H. apply str_eqb_eq in H. congruence.
Qed.

Section Generic.

Context {number : Type} {engine : Engine number}.
Context {S : Type} {table : ProjectsTable (number := number) S}.

#[local] Abbreviation value := (JsVal number).
#[local] Abbreviation Props := (list (jsstring * value)).
#[local] Abbreviation Request := (Request number).
#[local] Abbreviation Response := (Response number).

Variable env : Env.

Lemma truthy_not_nullish (v : value) :
  truthy v = true -> v <> JUndefined /\ v <> JNull.
Proof. destruct v; simpl; intros H; split; congruence. Qed.

(** Reading a property of a truthy value never throws. *)
Lemma get_truthy (v : value) (k : string) :
  truthy v = true -> get v k = Ok (get_opt v k).
Proof. destruct v; simpl; intros H; try reflexivity; discriminate. Qed.

(** Only an object has one of the properties the handler reads. *)
Lemma get_opt_truthy_object (v : value) (k : string) :
  truthy (get_opt v k) = true -> exists ps, v = JObj ps.
Proof. destruct v; simpl; intros H; try discriminate. now eexists. Qed.

Lemma object_truthy (v : value) (ps : Props) : v = JObj ps -> truthy v = true.
Proof. now intros ->. Qed.


Lemma js_or_object_truthy (v : value) : truthy (js_or v (JObj [])) = true.
Proof. unfold js_or. destruct (truthy v) eqn:E; [exact E | reflexivity]. Qed.

Lemma strict_eq_str_eq (v : value) (s : jsstring) :
  strict_eq_str v s = true <-> v = JStr s.
Proof.
  destruct v; simpl; try (split; [discriminate | congruence]).
  rewrite str_eqb_eq. split; [now intros -> | congruence].
Qed.


(** ** The request as the handler reads it *)

Lemma handler_event_post (req : Request) (w : World number S) :
  event_post req ->
  handler env req w =
  try_catch (handler_try env req)
    (fun err =>
       message <- lift (exn_message err) ;;
       ret (respond 500
              (JObj [(js "error",
                      js_or message (JStr (js "Internal Server Error")))])))
    w.
Proof.
  intros [Hm Hc]. unfold handler. rewrite Hm, Hc. reflexivity.
Qed.

Lemma event_of_get (req : Request) :
  get (js_or (safeParse (body req)) (JObj [])) "event" = Ok (event_of req).
Proof. apply get_truthy, js_or_object_truthy. Qed.

(** ** The two lookups *)




(** ** A request that reaches a project *)

Lemma located_event_object req w project w1 :
  located env req w project w1 -> truthy (event_of req) = true.
Proof.
  intros (_ & _ & Hp & _). apply get_opt_truthy_object in Hp as [ps ->].
  reflexivity.
Qed.

(** Runs the handler on a located request up to the [switch]. *)
Ltac run_to_dispatch Hl :=
  let Hev := fresh "Hev" in
  let Hpost := fresh "Hpost" in
  let Hu := fresh "Hu" in
  let Hk := fresh "Hk" in
  let Hp := fresh "Hp" in
  let Hf := fresh "Hf" in
  let Hproj := fresh "Hproj" in
  pose proof (located_event_object _ _ _ _ Hl) as Hev;
  destruct Hl as (Hpost & [Hu Hk] & Hp & Hf & Hproj);
  rewrite (handler_event_post _ _ Hpost);
  unfold try_catch, handler_try; cbv zeta;
  rewrite Hu, Hk, event_of_get; cbn [negb orb];
  unfold bind at 1, lift at 1; cbv beta iota zeta;
  match goal with
  | |- context [get_opt (event_of ?req) "pulseId"] => fold (pulseId_of req)
  end;
  rewrite Hp; cbn [negb]; cbv beta iota;
  unfold bind at 1; rewrite Hf; cbv beta iota; rewrite Hproj;
  cbn [negb]; cbv beta iota;
  rewrite (get_truthy _ "id" Hproj);
  rewrite (get_truthy _ "value" Hev);
  unfold bind, lift, ret; cbv beta iota;
  match goal with
  | |- context [safeParse (get_opt (event_of ?req) "value")] =>
      fold (value_of req)
  end.

(** Nothing resolved: no update is sent. *)
Lemma handler_no_updates req w project w1 :
  located env req w project w1 ->
  dispatch env (event_of req) (value_of req) [] = Ok [] ->
  handler env req w = (Ok (success project []), w1).
Proof.
  intros Hl Hd. run_to_dispatch Hl. rewrite Hd. reflexivity.
Qed.

Lemma handler_updates req w project w1 kv updates :
  located env req w project w1 ->
  dispatch env (event_of req) (value_of req) [] = Ok (kv :: updates) ->
  handler env req w = answer (persist project (kv :: updates) w1).
Proof.
  intros Hl Hd. run_to_dispatch Hl.
  unfold query_update, raise, answer, persist. rewrite Hd. cbv beta iota.
  unfold update_call.
  destruct (update_eq _ _ _ (store w1)) as [e s2].
  destruct (truthy e) eqn:E; [|reflexivity].
  unfold exn_message. rewrite (get_truthy e "message" E). reflexivity.
Qed.

Lemma handler_outcome req w project w1 updates :
  located env req w project w1 ->
  dispatch env (event_of req) (value_of req) [] = Ok updates ->
  handler env req w = answer (outcome project updates w1).
Proof.
  intros Hl Hd. destruct updates as [|kv updates].
  - now apply handler_no_updates.
  - now apply handler_updates.
Qed.



(** ** Stores whose reads leave them as they are *)



(** ** The cases of the [switch] *)

Lemma case_matches_inj (columnId : value) (c c' : option jsstring) :
  case_matches columnId c = true -> case_matches columnId c' = true -> c = c'.
Proof.
  destruct c as [s|], c' as [s'|]; simpl; intros H H'.
  - apply strict_eq_str_eq in H, H'. congruence.
  - apply strict_eq_str_eq in H. subst. discriminate.
  - apply strict_eq_str_eq in H'. subst. discriminate.
  - reflexivity.
Qed.

(** With distinct labels, the case that matches is the only one. *)
Lemma other_case (columnId : value) (i j : nat) (c c' : option jsstring) :
  distinct_columns env ->
  nth_error (column_ids env) i = Some c ->
  nth_error (column_ids env) j = Some c' ->
  i <> j ->
  case_matches columnId c = true ->
  case_matches columnId c' = false.
Proof.
  intros Hd Hi Hj Hij Hc.
  destruct (case_matches columnId c') eqn:E; [|reflexivity].
  exfalso. apply Hij.
  apply (proj1 (NoDup_nth_error (column_ids env)) Hd).
  - apply nth_error_Some. congruence.
  - rewrite Hi, Hj. f_equal. eapply case_matches_inj; eassumption.
Qed.

(** Rewrites the tests of the cases other than case [i], which matches. *)
Ltac skip_case Hd Hc i j :=
  rewrite (other_case _ i j _ _ Hd eq_refl eq_refl ltac:(discriminate) Hc).



Lemma dispatch_file (event v : value) (updates : Props) :
  distinct_columns env ->
  truthy event = true ->
  case_matches (get_opt event "columnId") (MONDAY_FILE_COL_ID env) = true ->
  dispatch env event v updates
  = if truthy v
    then Ok (assign (js "file_name")
               (js_or (get_opt v "text") (JStr (js "Project File")))
               (assign (js "file_url")
                  (js_or (get_opt v "url")
                     (js_or (get_opt v "text") (get_opt event "value")))
                  updates))
    else Ok updates.
Proof.
  intros Hd He Hc. unfold dispatch. rewrite (get_truthy _ _ He). simpl rbind.
  skip_case Hd Hc 2%nat 0%nat. skip_case Hd Hc 2%nat 1%nat. rewrite Hc.
  destruct (truthy v) eqn:Hv; [|reflexivity].
  rewrite !(get_truthy v _ Hv), (get_truthy event _ He). simpl rbind.
  unfold js_or.
  destruct (truthy (get_opt v "url")); [reflexivity|]. simpl rbind.
  destruct (truthy (get_opt v "text")); reflexivity.
Qed.





(** ** The handshake *)

(** C1, as amended. Unless the method is [OPTIONS], a request whose body
    carries a truthy [challenge] is answered with status 200 and that
    token, unchanged, whatever the method, the configuration and the rest
    of the body; the store is neither read nor written. *)
Theorem challenge_echoed (req : Request) (w : World number S) :
  method req <> js "OPTIONS" ->
  truthy (get_opt (body req) "challenge") = true ->
  handler env req w
  = (Ok (respond 200 (JObj [(js "challenge", get_opt (body req) "challenge")])),
     w).
Proof.
  intros Hm Hc. unfold handler.
  apply str_eqb_neq in Hm. rewrite Hm, Hc.
  destruct (get_opt_truthy_object _ _ Hc) as [ps Hb].
  rewrite (get_truthy _ _ (object_truthy _ _ Hb)). reflexivity.
Qed.

(** ** Request validation *)


(** ** The dispatch *)






End Generic.

(* ===================================================================== *)
(** * Properties of the handler over the in-memory [projects] table       *)
(* ===================================================================== *)

Section OverMemory.

Context {number : Type} {engine : Engine number}.

#[local] Abbreviation value := (JsVal number).
#[local] Abbreviation Props := (list (jsstring * value)).
#[local] Abbreviation Request := (Request number).
#[local] Abbreviation Db := (Db number).
#[local] Abbreviation Row := (Row number).
#[local] Abbreviation World := (World number Db).

Variable env : Env.

(** ** Objects *)

Lemma lookup_assign_same (k : jsstring) (x : value) (ps : Props) :
  lookup k (assign k x ps) = x.
Proof.
  induction ps as [|[k' x'] ps IH]; simpl.
  - now rewrite str_eqb_refl.
  - destruct (str_eqb k k') eqn:E; simpl; now rewrite E.
Qed.

Lemma lookup_assign_other (k k' : jsstring) (x : value) (ps : Props) :
  k' <> k -> lookup k' (assign k x ps) = lookup k' ps.
Proof.
  intros Hk. induction ps as [|[k0 x0] ps IH]; simpl.
  - apply str_eqb_neq in Hk. now rewrite Hk.
  - destruct (str_eqb k k0) eqn:E; simpl.
    + apply str_eqb_eq in E. subst k0.
      apply str_eqb_neq in Hk. now rewrite Hk.
    + now rewrite IH.
Qed.

(** ** Filters *)




(** ** Reads *)


Lemma select_all_columns (r : Row) : project_row (js "*") r = r.
Proof. reflexivity. Qed.

(** ** The lookups on rows *)




(** ** Writes *)



(** ** Lookup *)


(** ** Not found *)


(** ** Partial update *)


End OverMemory.

End WebhookFacts.

(* ===================================================================== *)
(** * The handler at work                                                 *)
(* ===================================================================== *)

Module Runs.

Import Js Store Webhook Statements Reference Scenario WebhookFacts.

#[local] Abbreviation value := (JsVal literal).

Lemma distinct_env0 : distinct_columns env0.
Proof.
  unfold distinct_columns, column_ids. simpl.
  repeat (constructor; [simpl; intuition discriminate|]). constructor.
Defined.

Lemma challenge_echoed_witness :
  method (handshake "GET") <> js "OPTIONS"
  /\ handler env0 (handshake "GET") w0
     = (Ok (respond 200 (body (handshake "GET"))), w0).
Proof.
  assert (H1 : method (handshake "GET") <> js "OPTIONS") by discriminate.
  split; [exact H1|].
  exact (challenge_echoed env0 (handshake "GET") w0 H1 eq_refl).
Defined.

(** C1, as stated, fails: to [OPTIONS] the handler answers the pre-flight
    [{ ok: true }] before it looks at the body, so the token is not
    echoed. *)
Lemma challenge_not_echoed_to_OPTIONS :
  truthy (get_opt (body (handshake "OPTIONS")) "challenge") = true
  /\ handler env0 (handshake "OPTIONS") w0
     = (Ok (respond 200 (JObj [(js "ok", JBool true)])), w0)
  /\ handler env0 (handshake "OPTIONS") w0
     <> (Ok (respond 200
               (JObj [(js "challenge",
                       get_opt (body (handshake "OPTIONS")) "challenge")])),
         w0).
Proof.
  split; [reflexivity|]. split; [reflexivity|].
  vm_compute. discriminate.
Qed.











End Runs.

(* ===================================================================== *)
(** * Further properties of the webhook handler                           *)
(* ===================================================================== *)

Module HandlerFacts.

Import Js Store Webhook Statements MoreStatements WebhookFacts.

Local Open Scope handler_scope.

Section Generic.

Context {number : Type} {engine : Engine number}.
Context {S : Type} {table : ProjectsTable (number := number) S}.

#[local] Abbreviation value := (JsVal number).
#[local] Abbreviation Props := (list (jsstring * value)).
#[local] Abbreviation Request := (Request number).
#[local] Abbreviation Response := (Response number).

Variable env : Env.

(** ** Requests that stop before the [try] block *)

(** X4. A request whose method is not [POST] never reaches the store: it gets
    the pre-flight answer, the echo of its challenge, or status 405. *)
Theorem non_post_answered_without_store (req : Request) (w : World number S) :
  method req <> js "POST" ->
  handler env req w
  = (Ok (if str_eqb (method req) (js "OPTIONS")
         then respond 200 (JObj [(js "ok", JBool true)])
         else if truthy (get_opt (body req) "challenge")
         then respond 200
                (JObj [(js "challenge", get_opt (body req) "challenge")])
         else respond 405 (JObj [(js "error", JStr (js "Method not allowed"))])),
     w).
Proof.
  intros Hm. unfold handler.
  destruct (str_eqb (method req) (js "OPTIONS")); [reflexivity|].
  destruct (truthy (get_opt (body req) "challenge")) eqn:Hc.
  - destruct (get_opt_truthy_object _ _ Hc) as [ps Hb].
    rewrite (get_truthy _ _ (object_truthy _ _ Hb)). reflexivity.
  - apply str_eqb_neq in Hm. rewrite Hm. reflexivity.
Qed.

(** X5. Without the store credentials every event is answered with status
    500 and the message of the configuration error, before the payload
    is looked at and before the store is. *)
Theorem missing_credentials_rejected (req : Request) (w : World number S) :
  event_post req ->
  truthy (supabaseUrl env) = false \/ truthy (supabaseServiceKey env) = false ->
  handler env req w
  = (Ok (respond 500
           (JObj [(js "error", JStr (js "Missing Supabase credentials"))])),
     w).
Proof.
  intros Hpost Hcred. rewrite (handler_event_post _ _ _ Hpost).
  unfold try_catch, handler_try.
  assert (Hor : negb (truthy (supabaseUrl env))
                || negb (truthy (supabaseServiceKey env)) = true).
  { destruct Hcred as [H|H]; rewrite H; [reflexivity|].
    now rewrite orb_true_r. }
  rewrite Hor. reflexivity.
Qed.

(** ** What the handler can throw *)

Lemma get_throws_TypeError (v : value) (k : string) (e : Exn number) :
  get v k = Throw e -> e = TypeError.
Proof. destruct v; simpl; congruence. Qed.

(** Runs one [rbind] of the [switch], whatever its left side is. *)
Ltac step_rbind :=
  match goal with
  | |- context [rbind (Ok _) _] => progress simpl rbind
  | |- context [rbind (Throw _) _] => progress simpl rbind
  | |- context [rbind (get ?v ?k) _] =>
      let E := fresh "E" in
      destruct (get v k) eqn:E; simpl rbind;
      [|apply get_throws_TypeError in E; subst]
  | |- context [rbind (cleanText ?t) _] =>
      destruct t; simpl cleanText; simpl rbind
  | |- context [if ?b then _ else _] => destruct b
  end.

(** The [switch] throws nothing but the engine's [TypeError]. *)
Lemma dispatch_throws_TypeError (event v : value) (updates : Props)
  (e : Exn number) :
  dispatch env event v updates = Throw e -> e = TypeError.
Proof.
  unfold dispatch. repeat step_rbind; congruence.
Qed.

(** ** Every path of the handler *)

(** Looking a project up sends one or two lookups and throws nothing but
    the error of the store. *)
Lemma find_project_outcomes (pulseId : value) (w : World number S) :
  exists reads,
    calls (snd (find_project pulseId w)) = calls w ++ reads
    /\ (reads = [first_lookup pulseId]
        \/ reads = [first_lookup pulseId; second_lookup pulseId])
    /\ forall e, fst (find_project pulseId w) = Throw e ->
                 exists v, e = Thrown v /\ truthy v = true.
Proof.
  unfold find_project, bind, query_maybeSingle, raise, ret. simpl.
  destruct (select_eq_maybeSingle _ _ _ (store w)) as [r s1].
  destruct (truthy (error r)) eqn:He.
  { eexists. split; [reflexivity|]. split; [now left|].
    simpl. intros e [= <-]. now eexists. }
  destruct (truthy (data r)); simpl.
  { eexists. split; [reflexivity|]. split; [now left|]. discriminate. }
  destruct (select_eq_maybeSingle _ _ _ s1) as [r' s2].
  exists [first_lookup pulseId; second_lookup pulseId].
  destruct (truthy (error r')) eqn:He'; simpl; rewrite <- app_assoc;
    (split; [reflexivity|]); (split; [now right|]).
  - intros e [= <-]. now eexists.
  - discriminate.
Qed.

(** Closes a path of the handler, given the reads and the writes it
    sent. *)
Ltac path reads writes :=
  eexists; exists reads, writes; eexists;
  split; [reflexivity|];
  split; [simpl; tauto|];
  split; [reflexivity|];
  split; [cbn [calls]; rewrite <- ?app_assoc, ?app_nil_r; reflexivity|];
  split; [reflexivity|];
  split; [simpl; lia|];
  left; reflexivity.

(** Closes a path that went through the lookups [reads], then sent the
    reads [more] and the writes [writes]. *)
Ltac lookups_then more writes Hcalls Hreads :=
  match type of Hcalls with
  | _ = _ ++ ?reads =>
      eexists; exists (reads ++ more), writes; eexists;
      split; [reflexivity|];
      split; [simpl; tauto|];
      split; [reflexivity|];
      split; [cbn [calls]; rewrite Hcalls, <- ?app_assoc, ?app_nil_r;
              reflexivity|];
      split; [destruct Hreads; subst reads; reflexivity|];
      split; [destruct Hreads; subst reads; simpl; lia|];
      first [left; reflexivity
            | right; do 2 eexists;
              split; [reflexivity | split; [eassumption | discriminate]]]
  end.

Lemma handler_paths (req : Request) (w : World number S) :
  exists resp reads writes w',
    handler env req w = (Ok resp, w')
    /\ In (status resp) [200; 400; 404; 405; 500]
    /\ headers resp = cors_headers
    /\ calls w' = calls w ++ reads ++ writes
    /\ existsb is_write reads = false
    /\ (List.length reads <= 3)%nat
    /\ (writes = []
        \/ exists payload project_id,
             writes = [Update (JObj payload) (js "id") project_id]
             /\ dispatch env (event_of req) (value_of req) [] = Ok payload
             /\ payload <> []).
Proof.
  unfold handler.
  destruct (str_eqb (method req) (js "OPTIONS")); [path (@nil (Call number)) (@nil (Call number))|].
  destruct (truthy (get_opt (body req) "challenge")) eqn:Hc.
  { destruct (get_opt_truthy_object _ _ Hc) as [ps Hb].
    rewrite (get_truthy _ _ (object_truthy _ _ Hb)).
    path (@nil (Call number)) (@nil (Call number)). }
  destruct (str_eqb (method req) (js "POST")); cbn [negb];
    [|path (@nil (Call number)) (@nil (Call number))].
  unfold try_catch, handler_try. cbv zeta.
  destruct (truthy (supabaseUrl env)); cbn [negb orb];
    [|path (@nil (Call number)) (@nil (Call number))].
  destruct (truthy (supabaseServiceKey env)); cbn [negb orb];
    [|path (@nil (Call number)) (@nil (Call number))].
  rewrite event_of_get. unfold bind at 1, lift at 1. cbv beta iota zeta.
  fold (pulseId_of req).
  destruct (truthy (pulseId_of req)) eqn:Hp; cbn [negb];
    [|path (@nil (Call number)) (@nil (Call number))].
  assert (Hev : truthy (event_of req) = true).
  { unfold pulseId_of in Hp. apply get_opt_truthy_object in Hp as [ps ->].
    reflexivity. }
  destruct (find_project_outcomes (pulseId_of req) w)
    as (reads & Hcalls & Hreads & Hthrow).
  unfold bind at 1.
  destruct (find_project (pulseId_of req) w) as [[project|e] w1] eqn:Hf;
    simpl in Hcalls, Hthrow.
  2: { destruct (Hthrow e eq_refl) as (v & -> & Hv).
       unfold bind, lift, ret, exn_message. rewrite (get_truthy _ _ Hv).
       lookups_then (@nil (Call number)) (@nil (Call number)) Hcalls Hreads. }
  destruct (truthy project) eqn:Hproj; cbn [negb].
  2: { unfold bind, query_list, ret.
       destruct (select_list _ (store w1)) as [r3 s3].
       lookups_then [listing (number := number)] (@nil (Call number))
         Hcalls Hreads. }
  rewrite (get_truthy _ "id" Hproj), (get_truthy _ "value" Hev).
  unfold bind, lift, ret. cbv beta iota.
  destruct (dispatch env (event_of req)
              (safeParse (get_opt (event_of req) "value")) [])
    as [[|kv updates]|e] eqn:Hd.
  - lookups_then (@nil (Call number)) (@nil (Call number)) Hcalls Hreads.
  - unfold query_update, raise.
    destruct (update_eq _ _ _ (store w1)) as [ue s2].
    destruct (truthy ue) eqn:Hue;
      [unfold exn_message; rewrite (get_truthy _ _ Hue)|];
      lookups_then (@nil (Call number))
        [Update (JObj (kv :: updates)) (js "id") (get_opt project "id")]
        Hcalls Hreads.
  - apply dispatch_throws_TypeError in Hd. subst e. simpl exn_message.
    lookups_then (@nil (Call number)) (@nil (Call number)) Hcalls Hreads.
Qed.

(** X1. Whatever the request, the configuration and the answers of the
    store, the handler returns a response (no exception leaves it), with
    one of five status codes and with the three CORS headers. *)
Theorem handler_always_responds (req : Request) (w : World number S) :
  exists resp w',
    handler env req w = (Ok resp, w')
    /\ In (status resp) [200; 400; 404; 405; 500]
    /\ headers resp = cors_headers.
Proof.
  destruct (handler_paths req w) as (resp & _ & _ & w' & H & Hs & Hh & _).
  now exists resp, w'.
Qed.

(** X2. A run of the handler sends at most three reads and then at most one
    write, and that write is an update filtered on the [id] column. *)
Theorem handler_sends_at_most_one_update (req : Request) (w : World number S) :
  exists reads writes,
    calls (snd (handler env req w)) = calls w ++ reads ++ writes
    /\ existsb is_write reads = false
    /\ (List.length reads <= 3)%nat
    /\ (writes = []
        \/ exists payload project_id,
             writes = [Update (JObj payload) (js "id") project_id]).
Proof.
  destruct (handler_paths req w)
    as (resp & reads & writes & w' & H & _ & _ & Hc & Hr & Hn & Hw).
  exists reads, writes. rewrite H.
  repeat (split; [assumption|]).
  destruct Hw as [Hw|(payload & pid & Hw & _)]; [now left|].
  right. now exists payload, pid.
Qed.

(** ** Errors of the store *)



(** ** The other cases of the [switch] *)

(** Rewrites the test of case [j], given that case [i] matches. *)
Ltac skip_case Hd Hc i j :=
  rewrite (other_case env _ i j _ _ Hd eq_refl eq_refl ltac:(discriminate) Hc).

Lemma dispatch_duedate (event v : value) (updates : Props) :
  distinct_columns env ->
  truthy event = true ->
  case_matches (get_opt event "columnId") (MONDAY_DUEDATE_COL_ID env) = true ->
  dispatch env event v updates
  = if truthy (get_opt v "date")
    then Ok (assign (js "due_date") (get_opt v "date") updates)
    else Ok updates.
Proof.
  intros Hd He Hc. unfold dispatch. rewrite (get_truthy _ _ He). simpl rbind.
  skip_case Hd Hc 3%nat 0%nat. skip_case Hd Hc 3%nat 1%nat.
  skip_case Hd Hc 3%nat 2%nat. rewrite Hc.
  destruct (truthy (get_opt v "date")) eqn:Ht; [|reflexivity].
  destruct (get_opt_truthy_object _ _ Ht) as [ps ->]. reflexivity.
Qed.

Lemma dispatch_name (event v : value) (updates : Props) :
  distinct_columns env ->
  truthy event = true ->
  case_matches (get_opt event "columnId") (MONDAY_NAME_COL_ID env) = true ->
  dispatch env event v updates
  = if truthy (get_opt v "text")
    then Ok (assign (js "name") (get_opt v "text") updates)
    else Ok updates.
Proof.
  intros Hd He Hc. unfold dispatch. rewrite (get_truthy _ _ He). simpl rbind.
  skip_case Hd Hc 6%nat 0%nat. skip_case Hd Hc 6%nat 1%nat.
  skip_case Hd Hc 6%nat 2%nat. skip_case Hd Hc 6%nat 3%nat.
  skip_case Hd Hc 6%nat 4%nat. skip_case Hd Hc 6%nat 5%nat. rewrite Hc.
  destruct (truthy (get_opt v "text")) eqn:Ht; [|reflexivity].
  destruct (get_opt_truthy_object _ _ Ht) as [ps ->]. reflexivity.
Qed.




(** An event for the name column sets [name] to [value.text] when that
    is truthy, and resolves nothing otherwise. *)
Theorem name_resolved (req : Request) (w : World number S)
  (project : value) (w1 : World number S) :
  located env req w project w1 ->
  distinct_columns env ->
  case_matches (columnId_of req) (MONDAY_NAME_COL_ID env) = true ->
  let text := get_opt (value_of req) "text" in
  handler env req w
  = answer (outcome project
              (if truthy text then [(js "name", text)] else []) w1).
Proof.
  intros Hl Hd Hc text. apply (handler_outcome env req w project w1 _ Hl).
  rewrite (dispatch_name _ _ _ Hd (located_event_object _ _ _ _ _ Hl) Hc).
  fold text. destruct (truthy text); reflexivity.
Qed.



(** ** What an update can name *)

(** The attributes the [switch] can resolve. *)
Lemma dispatch_keys (event v : value) (updates : Props) :
  dispatch env event v [] = Ok updates ->
  (List.length updates <= 2)%nat
  /\ NoDup (map fst updates)
  /\ forall k, In k (map fst updates) ->
       In k (map js [ "status"; "priority"; "file_url"; "file_name";
                      "due_date"; "grant_view"; "feedback"; "name" ]%string).
Proof.
  unfold dispatch. repeat step_rbind; intros [= <-];
    (split; [simpl; lia|]);
    (split; [repeat constructor; simpl; intuition discriminate|]);
    intros k Hk; simpl in Hk; simpl; intuition.
Qed.

(** X3. Whatever the request, an update the handler sends names at most two
    columns, all among the eight attributes of the [switch], and so
    never [id], [user_id], [monday_item_id], [created_at] or
    [updated_at]. *)
Theorem update_names_known_attributes (req : Request) (w : World number S)
  (payload : value) (column : jsstring) (v : value)
  (before after : list (Call number)) :
  calls (snd (handler env req w))
  = calls w ++ before ++ Update payload column v :: after ->
  exists updates,
    payload = JObj updates
    /\ (1 <= List.length updates <= 2)%nat
    /\ forall k, In k (map fst updates) ->
         In k (map js [ "status"; "priority"; "file_url"; "file_name";
                        "due_date"; "grant_view"; "feedback"; "name" ]%string)
         /\ ~ In k (map js [ "id"; "user_id"; "monday_item_id"; "created_at";
                             "updated_at" ]%string).
Proof.
  intros Hcalls.
  destruct (handler_paths req w)
    as (resp & reads & writes & w' & H & _ & _ & Hc & Hr & _ & Hw).
  rewrite H in Hcalls. simpl in Hcalls. rewrite Hc in Hcalls.
  apply app_inv_head in Hcalls.
  assert (Hin : In (Update payload column v) (reads ++ writes)).
  { rewrite Hcalls. apply in_or_app. right. now left. }
  apply in_app_or in Hin as [Hin|Hin].
  { exfalso. assert (Hex : existsb is_write reads = true).
    { apply existsb_exists. eexists. split; [exact Hin | reflexivity]. }
    congruence. }
  destruct Hw as [->|(updates & pid & -> & Hd & Hne)]; [destruct Hin|].
  destruct Hin as [Hin|[]]. injection Hin as <- _ _.
  exists updates. split; [reflexivity|].
  destruct (dispatch_keys _ _ _ Hd) as (Hlen & _ & Hkeys).
  split.
  - destruct updates; [congruence | simpl in *; lia].
  - intros k Hk. specialize (Hkeys k Hk). split; [exact Hkeys|].
    simpl in Hkeys. simpl. intros Hid.
    repeat (destruct Hkeys as [<-|Hkeys];
            [repeat (destruct Hid as [Hid|Hid]; [discriminate Hid|]);
             exact Hid|]).
    exact Hkeys.
Qed.

(** ** The body as text *)

Lemma safeParse_text (s : jsstring) :
  safeParse (JStr s)
  = match JSON_parse s with Some v => v | None => JStr s end.
Proof. reflexivity. Qed.

Lemma safeParse_not_text (b : value) : is_string b = false -> safeParse b = b.
Proof. destruct b; try reflexivity; discriminate. Qed.

(** X8. A [POST] body delivered as JSON text is handled exactly as the value
    it parses to, provided that value is not itself a string and carries
    no challenge (the challenge is looked for in the body as delivered,
    before it is parsed). *)
Theorem body_text_is_parsed (s : jsstring) (b : value) (w : World number S) :
  JSON_parse s = Some b ->
  is_string b = false ->
  truthy (get_opt b "challenge") = false ->
  handler env {| method := js "POST"; body := JStr s |} w
  = handler env {| method := js "POST"; body := b |} w.
Proof.
  intros Hp Hs Hc.
  rewrite !handler_event_post by (split; [reflexivity | assumption || reflexivity]).
  unfold try_catch, handler_try. cbv zeta. cbn [body].
  rewrite safeParse_text, Hp, (safeParse_not_text b Hs). reflexivity.
Qed.


(** A challenge delivered as JSON text is not echoed: the text has no
    property [challenge], and the object it parses to has no event. *)
Theorem challenge_text_not_echoed (s : jsstring) (token : value)
  (w : World number S) :
  configured env ->
  JSON_parse s = Some (JObj [(js "challenge", token)]) ->
  handler env {| method := js "POST"; body := JStr s |} w
  = (Ok (respond 400
           (JObj [(js "error",
                   JStr (js "Invalid webhook payload - missing pulseId"))])),
     w).
Proof.
  intros [Hu Hk] Hp.
  rewrite handler_event_post by (split; reflexivity).
  unfold try_catch, handler_try. cbv zeta. cbn [body].
  rewrite safeParse_text, Hu, Hk, Hp. reflexivity.
Qed.

(** ** Events without a column *)


End Generic.

(** ** The cleaning of the priority label *)

Lemma trim_start_edge (s : jsstring) : edge_free (trim_start s).
Proof.
  induction s as [|c s IH]; simpl; [exact I|].
  destruct (is_white_space c) eqn:E; [exact IH | exact E].
Qed.

Lemma trim_start_fixed (s : jsstring) : edge_free s -> trim_start s = s.
Proof. destruct s as [|c s]; simpl; [reflexivity|]. now intros ->. Qed.

Lemma trim_start_snoc (s : jsstring) (c : Z) :
  is_white_space c = false -> trim_start (s ++ [c]) = trim_start s ++ [c].
Proof.
  intros Hc. induction s as [|x s IH]; simpl; [now rewrite Hc|].
  destruct (is_white_space x); [exact IH | reflexivity].
Qed.

(** What [trim] returns starts and ends with no white space. *)
Lemma trim_edges (s : jsstring) : edge_free (trim s) /\ edge_free (rev (trim s)).
Proof.
  unfold trim. rewrite rev_involutive. split; [|apply trim_start_edge].
  pose proof (trim_start_edge s) as H.
  destruct (trim_start s) as [|c l]; [exact I|]. simpl in H. simpl rev.
  rewrite (trim_start_snoc _ _ H), rev_app_distr. exact H.
Qed.

(** A string that starts and ends with no white space is left as it is. *)
Lemma trim_fixed (s : jsstring) :
  edge_free s -> edge_free (rev s) -> trim s = s.
Proof.
  intros H1 H2. unfold trim.
  now rewrite (trim_start_fixed s H1), (trim_start_fixed _ H2), rev_involutive.
Qed.


Lemma trim_start_Forall (P : Z -> Prop) (s : jsstring) :
  Forall P s -> Forall P (trim_start s).
Proof.
  induction 1 as [|c s Hc Hs IH]; simpl; [constructor|].
  destruct (is_white_space c); [exact IH | now constructor].
Qed.

Lemma trim_Forall (P : Z -> Prop) (s : jsstring) :
  Forall P s -> Forall P (trim s).
Proof.
  intros H. unfold trim.
  apply Forall_rev, trim_start_Forall, Forall_rev, trim_start_Forall, H.
Qed.

Lemma strip_glyphs_Forall (s : jsstring) :
  Forall (fun c => is_glyph_unit c = false) (strip_glyphs s).
Proof.
  unfold strip_glyphs. apply Forall_forall. intros c Hc.
  apply filter_In in Hc as [_ Hc]. now apply negb_true_iff.
Qed.

Lemma strip_glyphs_fixed (s : jsstring) :
  Forall (fun c => is_glyph_unit c = false) s -> strip_glyphs s = s.
Proof.
  induction 1 as [|c s Hc _ IH]; [reflexivity|].
  unfold strip_glyphs in *. simpl. now rewrite Hc, IH.
Qed.

(** X15. The cleaned label holds no code unit of the glyph class and has no
    white space at either end; cleaning it again changes nothing; and
    the labels that cleaning leaves as they are are exactly those. *)
Theorem cleaned_label_is_normal (s : jsstring) :
  let clean := fun t => trim (strip_glyphs t) in
  Forall (fun c => is_glyph_unit c = false) (clean s)
  /\ edge_free (clean s) /\ edge_free (rev (clean s))
  /\ clean (clean s) = clean s
  /\ (clean s = s <->
      Forall (fun c => is_glyph_unit c = false) s
      /\ edge_free s /\ edge_free (rev s)).
Proof.
  intros clean.
  assert (Hg : Forall (fun c => is_glyph_unit c = false) (clean s))
    by apply trim_Forall, strip_glyphs_Forall.
  destruct (trim_edges (strip_glyphs s)) as [He1 He2].
  assert (Hfix : forall t, Forall (fun c => is_glyph_unit c = false) t ->
                           edge_free t -> edge_free (rev t) -> clean t = t).
  { intros t H1 H2 H3. unfold clean.
    rewrite (strip_glyphs_fixed t H1). now apply trim_fixed. }
  repeat split; try assumption.
  - now apply Hfix.
  - now rewrite <- H.
  - now rewrite <- H.
  - now rewrite <- H.
  - intros (H1 & H2 & H3). now apply Hfix.
Qed.

(** X16. The class of the regular expression starts at the high surrogate
    D83C: of a character between U+10000 and U+1EFFF, whose high
    surrogate lies below it, only the low surrogate is removed, and the
    lone high surrogate stays in the label. *)
Theorem low_plane_character_is_halved (before after : jsstring) (hi lo : Z) :
  0xD800 <= hi < 0xD83C ->
  0xDC00 <= lo <= 0xDFFF ->
  strip_glyphs (before ++ [hi; lo] ++ after)
  = strip_glyphs before ++ [hi] ++ strip_glyphs after.
Proof.
  intros Hhi Hlo. unfold strip_glyphs. rewrite !filter_app. f_equal.
  assert (H1 : is_glyph_unit hi = false).
  { unfold is_glyph_unit.
    repeat match goal with
           | |- context [?a <=? ?b] =>
               destruct (Z.leb_spec a b); try lia
           end; reflexivity. }
  assert (H2 : is_glyph_unit lo = true).
  { unfold is_glyph_unit.
    repeat match goal with
           | |- context [?a <=? ?b] =>
               destruct (Z.leb_spec a b); try lia
           end; reflexivity. }
  simpl. now rewrite H1, H2.
Qed.

Section GenericText.

Context {number : Type} {engine : Engine number}.
Context {S : Type} {table : ProjectsTable (number := number) S}.

#[local] Abbreviation value := (JsVal number).
#[local] Abbreviation Request := (Request number).

Variable env : Env.


End GenericText.

(** ** Replaying an event *)

Section OverMemory.

Context {number : Type} {engine : Engine number}.

#[local] Abbreviation value := (JsVal number).
#[local] Abbreviation Props := (list (jsstring * value)).
#[local] Abbreviation Request := (Request number).
#[local] Abbreviation Db := (Db number).
#[local] Abbreviation Row := (Row number).
#[local] Abbreviation World := (World number Db).

Variable env : Env.















End OverMemory.

End HandlerFacts.

(* ===================================================================== *)
(** * Properties of the project creation handler                          *)
(* ===================================================================== *)

Module CreateProjectFacts.

Import Js Store Webhook WebhookFacts CreateProject.

Section Generic.

Context {number : Type} {engine : Engine number}.
Context {S : Type} {table : ProjectsInsert (number := number) S}.

#[local] Abbreviation value := (JsVal number).
#[local] Abbreviation Props := (list (jsstring * value)).
#[local] Abbreviation Request := (Request number).
#[local] Abbreviation Response := (Response number).
#[local] Abbreviation World := (CreateProject.World number S).

Lemma new_row_of_body (body : value) :
  truthy body = true \/ (body <> JUndefined /\ body <> JNull) ->
  new_row body
  = Ok [ (js "user_id", get_opt body "user_id");
         (js "name", get_opt body "name");
         (js "status", JStr (js "Not Started"));
         (js "priority", get_opt body "priority");
         (js "monday_item_id", get_opt body "monday_item_id");
         (js "due_date", get_opt body "due_date");
         (js "file_url", get_opt body "file_url");
         (js "file_name", get_opt body "file_name") ].
Proof.
  intros H. unfold new_row.
  assert (Hget : forall k, get body k = Ok (get_opt body k)).
  { intros k. destruct body; try reflexivity;
      destruct H as [H|[H1 H2]]; try discriminate; congruence. }
  rewrite !Hget. reflexivity.
Qed.

(** X19. A [POST] with a body inserts one row made of the seven fields of the
    body, a field the body lacks being [undefined], and of the status
    ["Not Started"], whatever status the body carries; every property
    of the row is a column of [projects]. When the store accepts the
    row the answer is [{ success: true }] with status 200. *)
Theorem create_project_forces_initial_status (req : Request) (w : World)
  (e : value) (s' : S) :
  method req = js "POST" ->
  body req <> JUndefined -> body req <> JNull ->
  exists row,
    new_row (body req) = Ok row
    /\ lookup (js "status") row = JStr (js "Not Started")
    /\ (forall k, In k [ "user_id"; "name"; "priority"; "monday_item_id";
                         "due_date"; "file_url"; "file_name" ]%string ->
                  lookup (js k) row = get_opt (body req) k)
    /\ forallb (fun kv => has_column (fst kv)) row = true
    /\ (insert_row (JObj row) (CreateProject.store w) = (e, s') ->
        truthy e = false ->
        handler req w
        = (Ok (reply 200 (JObj [(js "success", JBool true)])),
           CreateProject.Build_World s' (inserts w ++ [JObj row]))).
Proof.
  intros Hm Hu Hn. eexists. split.
  { apply new_row_of_body. right. now split. }
  split; [reflexivity|]. split.
  { intros k Hk. simpl in Hk.
    repeat (destruct Hk as [<-|Hk]; [reflexivity|]). destruct Hk. }
  split; [reflexivity|].
  intros Hi He. unfold handler. rewrite Hm.
  rewrite new_row_of_body by (right; now split).
  cbn [negb str_eqb]. simpl str_eqb. cbv iota. rewrite Hi, He. reflexivity.
Qed.

(** X20. An error of the store on the insert is answered with status 500 and
    the [message] of that error as it is, with no fallback when the
    error has none; the row was sent once. *)
Theorem create_project_surfaces_store_error (req : Request) (w : World)
  (row : Props) (e : value) (s' : S) :
  method req = js "POST" ->
  new_row (body req) = Ok row ->
  insert_row (JObj row) (CreateProject.store w) = (e, s') ->
  truthy e = true ->
  handler req w
  = (Ok (reply 500 (JObj [(js "error", get_opt e "message")])),
     CreateProject.Build_World s' (inserts w ++ [JObj row])).
Proof.
  intros Hm Hr Hi He. unfold handler. rewrite Hm, Hr. simpl str_eqb.
  cbn [negb]. rewrite Hi, He. unfold on_error, exn_message.
  rewrite (get_truthy _ _ He). reflexivity.
Qed.

(** X21. A [POST] without a body cannot be destructured: the answer is status
    500 with the message of the engine's [TypeError], and nothing is
    sent to the store. *)
Theorem create_project_without_body (req : Request) (w : World) :
  method req = js "POST" ->
  body req = JUndefined \/ body req = JNull ->
  handler req w
  = (Ok (reply 500 (JObj [(js "error", JStr type_error_message)])), w).
Proof.
  intros Hm Hb. unfold handler. rewrite Hm. simpl str_eqb. cbn [negb].
  destruct Hb as [Hb|Hb]; rewrite Hb; reflexivity.
Qed.

(** X22. Whatever the request and the answer of the store, the handler returns
    a response, with status 200, 405 or 500, having sent at most one
    row; a request that is not a [POST] gets 405 and sends none. *)
Theorem create_project_always_responds (req : Request) (w : World) :
  exists resp w',
    handler req w = (Ok resp, w')
    /\ In (status resp) [200; 405; 500]
    /\ (inserts w' = inserts w \/ exists row, inserts w' = inserts w ++ [row])
    /\ (method req <> js "POST" -> status resp = 405 /\ w' = w).
Proof.
  unfold handler.
  destruct (str_eqb (method req) (js "POST")) eqn:Hm; cbn [negb].
  2: { do 2 eexists. split; [reflexivity|].
       split; [simpl; tauto|]. split; [now left|]. now split. }
  apply str_eqb_eq in Hm.
  assert (Hrow : (exists row, new_row (body req) = Ok row)
                 \/ new_row (body req) = Throw TypeError).
  { destruct (body req) eqn:Hb; try (right; reflexivity);
      left; eexists; apply new_row_of_body; right; split; discriminate. }
  destruct Hrow as [[row Hr]|Hr]; rewrite Hr.
  - destruct (insert_row (JObj row) (CreateProject.store w)) as [e s'].
    destruct (truthy e) eqn:He.
    + unfold on_error, exn_message. rewrite (get_truthy _ _ He).
      do 2 eexists. split; [reflexivity|]. split; [simpl; tauto|].
      split; [right; now eexists | congruence].
    + do 2 eexists. split; [reflexivity|]. split; [simpl; tauto|].
      split; [right; now eexists | congruence].
  - do 2 eexists. split; [reflexivity|]. split; [simpl; tauto|].
    split; [now left | congruence].
Qed.

End Generic.

End CreateProjectFacts.

(* ===================================================================== *)
(** * Properties of the client: board service, project page, pages        *)
(* ===================================================================== *)

Module ClientFacts.

Import Js Store Webhook Statements WebhookFacts HandlerFacts.

Section Board.

Context {number : Type} {engine : Engine number}.

#[local] Abbreviation value := (JsVal number).
#[local] Abbreviation Props := (list (jsstring * value)).

Variable to_String : value -> jsstring.

(** X23. [makeRequest] returns only the [data] of a response that is [ok],
    whose body was read, and that reports no [errors]. *)
Theorem makeRequest_returns_clean_data (f : Monday.Fetched) (d : value) :
  Monday.makeRequest to_String f = Ok d ->
  exists statusText data,
    f = Monday.Responded true statusText (Ok data)
    /\ truthy (get_opt data "errors") = false
    /\ d = get_opt data "data".
Proof.
  destruct f as [e|ok statusText body]; simpl; [discriminate|].
  destruct ok; simpl; [|discriminate].
  destruct body as [data|e]; simpl; [|discriminate].
  destruct (get data "errors") as [errors|e] eqn:He; simpl; [|discriminate].
  assert (Hd : forall k, get data k = Ok (get_opt data k))
    by (intros k; destruct data; try reflexivity; discriminate).
  rewrite Hd in He. injection He as <-.
  destruct (truthy (get_opt data "errors")) eqn:Ht.
  - destruct (Monday.item0 (get_opt data "errors")) as [first|e]; simpl;
      [|discriminate].
    destruct (get first "message"); simpl; discriminate.
  - rewrite Hd. intros [= <-]. now exists statusText, data.
Qed.

Lemma or_default_given (x : option jsstring) (d : string) :
  js d <> [] -> Monday.or_default x d <> [].
Proof. destruct x as [[|c s]|]; simpl; intros H; try exact H; discriminate. Qed.

End Board.

Section RoundTrip.

Context {number : Type} {engine : Engine number}.

#[local] Abbreviation value := (JsVal number).
#[local] Abbreviation Props := (list (jsstring * value)).

Variable env : Env.
Variable c : Monday.Columns.

Lemma js_or_default_truthy (x : value) (d : string) :
  js d <> [] -> truthy (js_or x (JStr (js d))) = true.
Proof.
  intros Hd. unfold js_or. destruct (truthy x) eqn:E; [exact E|].
  simpl. destruct (js d); [congruence | reflexivity].
Qed.

Lemma js_or_truthy (a b : value) : truthy a = true -> js_or a b = a.
Proof. intros H. unfold js_or. now rewrite H. Qed.

(** X24. What [createItem] writes in the file column and in the due-date
    column is what the webhook reads back when the board hands it over
    under the same column identifier: the file link comes back as the
    same URL and the same display name (the placeholder when no name
    was given), the date as the same date. *)
Theorem item_columns_round_trip (projectData : value) :
  distinct_columns env ->
  let columnValues := Monday.column_values c projectData in
  let event column :=
    JObj [(js "columnId", JStr column);
          (js "value", lookup column columnValues)] in
  (Webhook.MONDAY_FILE_COL_ID env = Some (Monday.file c) ->
   Monday.file c <> [] ->
   truthy (get_opt projectData "fileUrl") = true ->
   dispatch env (event (Monday.file c))
     (safeParse (lookup (Monday.file c) columnValues)) []
   = Ok [(js "file_url", get_opt projectData "fileUrl");
         (js "file_name",
          js_or (get_opt projectData "fileName") (JStr (js "Project File")))])
  /\ (Webhook.MONDAY_DUEDATE_COL_ID env = Some (Monday.dueDate c) ->
      Monday.dueDate c <> [] ->
      Monday.dueDate c <> Monday.file c ->
      truthy (get_opt projectData "dueDate") = true ->
      dispatch env (event (Monday.dueDate c))
        (safeParse (lookup (Monday.dueDate c) columnValues)) []
      = Ok [(js "due_date", get_opt projectData "dueDate")]).
Proof.
  intros Hd columnValues event. split.
  - intros Hcol Hne Hurl.
    assert (Hv : lookup (Monday.file c) columnValues
                 = JObj [(js "url", get_opt projectData "fileUrl");
                         (js "text",
                          js_or (get_opt projectData "fileName")
                            (JStr (js "Project File")))]).
    { unfold columnValues, Monday.column_values. cbv zeta. rewrite Hurl.
      apply str_eqb_neq in Hne. rewrite Hne. cbn [negb andb].
      apply lookup_assign_same. }
    unfold event. rewrite Hv.
    match goal with
    | |- dispatch env ?ev ?v [] = _ =>
        rewrite (dispatch_file env ev v [] Hd eq_refl)
          by (rewrite Hcol; simpl; apply str_eqb_refl)
    end.
    cbn [truthy]. unfold safeParse.
    change (get_opt (JObj [(js "url", get_opt projectData "fileUrl");
                           (js "text",
                            js_or (get_opt projectData "fileName")
                              (JStr (js "Project File")))]) "url")
      with (get_opt projectData "fileUrl").
    change (get_opt (JObj [(js "url", get_opt projectData "fileUrl");
                           (js "text",
                            js_or (get_opt projectData "fileName")
                              (JStr (js "Project File")))]) "text")
      with (js_or (get_opt projectData "fileName") (JStr (js "Project File"))).
    rewrite (js_or_truthy _ _ Hurl).
    rewrite (js_or_truthy (js_or (get_opt projectData "fileName") _) _)
      by (apply js_or_default_truthy; discriminate).
    reflexivity.
  - intros Hcol Hne Hdiff Hdate.
    assert (Hv : lookup (Monday.dueDate c) columnValues
                 = JObj [(js "date", get_opt projectData "dueDate")]).
    { unfold columnValues, Monday.column_values. cbv zeta. rewrite Hdate.
      pose proof Hne as Hne'. apply str_eqb_neq in Hne'. rewrite Hne'.
      cbn [negb andb].
      destruct (truthy (get_opt projectData "fileUrl")
                && negb (str_eqb (Monday.file c) []));
        [rewrite lookup_assign_other by exact Hdiff|];
        apply lookup_assign_same. }
    unfold event. rewrite Hv.
    match goal with
    | |- dispatch env ?ev ?v [] = _ =>
        rewrite (dispatch_duedate env ev v [] Hd eq_refl)
          by (rewrite Hcol; simpl; apply str_eqb_refl)
    end.
    unfold safeParse.
    change (get_opt (JObj [(js "date", get_opt projectData "dueDate")]) "date")
      with (get_opt projectData "dueDate").
    now rewrite Hdate.
Qed.

End RoundTrip.

Section ProjectPage.

Context {number : Type} {engine : Engine number}.

#[local] Abbreviation value := (JsVal number).
#[local] Abbreviation State := (ProjectView.State (number := number)).
#[local] Abbreviation Effect := (ProjectView.Effect (number := number)).

Variable to_String : value -> jsstring.
Variable env : Monday.MetaEnv.
Variable user : value.
Variable projectId : jsstring.
Variable answers : ProjectView.Answers (number := number).

(** X25. Without a user, without a project, or with a feedback that is blank
    once trimmed, submitting sets nothing and sends nothing. *)
Theorem blank_feedback_is_ignored (st : State) :
  truthy user = false \/ truthy (ProjectView.project st) = false
  \/ trim (ProjectView.newFeedback st) = [] ->
  ProjectView.handleSubmitFeedback to_String env user projectId answers st
  = (Ok tt, st, []).
Proof.
  intros H. unfold ProjectView.handleSubmitFeedback.
  assert (Hg : negb (truthy user) || negb (truthy (ProjectView.project st))
               || str_eqb (trim (ProjectView.newFeedback st)) [] = true).
  { destruct H as [H|[H|H]]; rewrite H; cbn [negb orb];
      rewrite ?orb_true_r; reflexivity. }
  now rewrite Hg.
Qed.

#[local] Abbreviation on_board := (ClientStatements.on_board env).
#[local] Abbreviation board_update := (ClientStatements.board_update env).
#[local] Abbreviation feedback_row :=
  (ClientStatements.feedback_row to_String env user projectId answers).

Lemma try_submit_runs (st : State) :
  truthy user = true -> truthy (ProjectView.project st) = true ->
  ProjectView.try_submit to_String env user projectId answers st
  = if truthy (ProjectView.inserted answers) then
      (Throw (Thrown (ProjectView.inserted answers)), st,
       board_update st ++ [ProjectView.InsertFeedback (feedback_row st)])
    else
      (Ok tt,
       fst (ProjectView.loadFeedback projectId answers
              (ProjectView.set_newFeedback [] st)),
       board_update st
       ++ [ProjectView.InsertFeedback (feedback_row st);
           ProjectView.SelectFeedback projectId]).
Proof.
  intros Hu Hp.
  unfold ProjectView.try_submit, ClientStatements.board_update,
    ClientStatements.feedback_row, ClientStatements.on_board.
  rewrite (get_truthy _ "monday_item_id" Hp), (get_truthy _ "id" Hu).
  destruct (Monday.createMondayService env) as [service|]; simpl rbind.
  - destruct (truthy (get_opt (ProjectView.project st) "monday_item_id"));
      destruct (truthy (ProjectView.inserted answers)); reflexivity.
  - destruct (truthy (ProjectView.inserted answers)); reflexivity.
Qed.

(** X26. A feedback that passes the guard is inserted whatever the board
    answered. The board, when the service is configured and the project
    has a reference, is sent the trimmed text first; the row holds the
    text as typed and the identifier the board returned, or [null] when
    the board was skipped or failed. Then the input is cleared, the list
    is read again, and [submitting] is reset. *)
Theorem feedback_is_saved_whatever_the_board_answers (st : State) :
  truthy user = true ->
  truthy (ProjectView.project st) = true ->
  trim (ProjectView.newFeedback st) <> [] ->
  truthy (ProjectView.inserted answers) = false ->
  ProjectView.handleSubmitFeedback to_String env user projectId answers st
  = (Ok tt,
     {| ProjectView.project := ProjectView.project st;
        ProjectView.feedbackList :=
          if truthy (Store.error (ProjectView.listed answers))
          then ProjectView.feedbackList st
          else js_or (data (ProjectView.listed answers)) (JArr []);
        ProjectView.newFeedback := [];
        ProjectView.loading := ProjectView.loading st;
        ProjectView.submitting := false;
        ProjectView.approving := ProjectView.approving st;
        ProjectView.error := JStr [] |},
     board_update st
     ++ [ProjectView.InsertFeedback (feedback_row st);
         ProjectView.SelectFeedback projectId]).
Proof.
  intros Hu Hp Ht Hi. unfold ProjectView.handleSubmitFeedback.
  apply str_eqb_neq in Ht. rewrite Hu, Hp, Ht. cbn [negb orb].
  rewrite try_submit_runs by assumption. rewrite Hi.
  unfold ProjectView.settle, ProjectView.loadFeedback. cbn [fst].
  destruct (truthy (Store.error (ProjectView.listed answers))); reflexivity.
Qed.

(** X27. When the store refuses the feedback, the message of its error (or
    ["Failed to submit feedback"]) is shown, the input keeps the text,
    the list is not read again, and [submitting] is reset; the board may
    already hold the update. *)
Theorem feedback_store_error_is_shown (st : State) :
  truthy user = true ->
  truthy (ProjectView.project st) = true ->
  trim (ProjectView.newFeedback st) <> [] ->
  truthy (ProjectView.inserted answers) = true ->
  ProjectView.handleSubmitFeedback to_String env user projectId answers st
  = (Ok tt,
     {| ProjectView.project := ProjectView.project st;
        ProjectView.feedbackList := ProjectView.feedbackList st;
        ProjectView.newFeedback := ProjectView.newFeedback st;
        ProjectView.loading := ProjectView.loading st;
        ProjectView.submitting := false;
        ProjectView.approving := ProjectView.approving st;
        ProjectView.error :=
          js_or (get_opt (ProjectView.inserted answers) "message")
            (JStr (js "Failed to submit feedback")) |},
     board_update st ++ [ProjectView.InsertFeedback (feedback_row st)]).
Proof.
  intros Hu Hp Ht Hi. unfold ProjectView.handleSubmitFeedback.
  apply str_eqb_neq in Ht. rewrite Hu, Hp, Ht. cbn [negb orb].
  rewrite try_submit_runs by assumption. rewrite Hi.
  unfold ProjectView.settle, exn_message. rewrite (get_truthy _ _ Hi).
  reflexivity.
Qed.

(** X28. Approving writes [{ status: "Completed" }] to the store first. When
    the store refuses, its message (or ["Failed to approve project"]) is
    shown and the board is not written to. When the store accepts, the
    board, if the service is configured and the project has a reference,
    is sent [{ status: { label: "Completed" } }], keyed by the literal
    [status] and not by the configured column; its answer is not looked
    at: the project is read again and no error is shown. *)
Theorem approve_writes_store_before_board (st : State) :
  truthy (ProjectView.project st) = true ->
  let update :=
    ProjectView.UpdateProject (JObj [(js "status", JStr (js "Completed"))])
      projectId in
  (truthy (ProjectView.updated answers) = true ->
   ProjectView.handleApprove env projectId answers st
   = (Ok tt,
      {| ProjectView.project := ProjectView.project st;
         ProjectView.feedbackList := ProjectView.feedbackList st;
         ProjectView.newFeedback := ProjectView.newFeedback st;
         ProjectView.loading := ProjectView.loading st;
         ProjectView.submitting := ProjectView.submitting st;
         ProjectView.approving := false;
         ProjectView.error :=
           js_or (get_opt (ProjectView.updated answers) "message")
             (JStr (js "Failed to approve project")) |},
      [update]))
  /\ (truthy (ProjectView.updated answers) = false ->
      ProjectView.handleApprove env projectId answers st
      = (Ok tt,
         {| ProjectView.project :=
              if truthy (Store.error (ProjectView.selected answers))
              then ProjectView.project st
              else data (ProjectView.selected answers);
            ProjectView.feedbackList := ProjectView.feedbackList st;
            ProjectView.newFeedback := ProjectView.newFeedback st;
            ProjectView.loading := false;
            ProjectView.submitting := ProjectView.submitting st;
            ProjectView.approving := false;
            ProjectView.error := JStr [] |},
         [update]
         ++ (if on_board st
             then [ProjectView.UpdateItem
                     (get_opt (ProjectView.project st) "monday_item_id")
                     (JObj [(js "status",
                             JObj [(js "label", JStr (js "Completed"))])])]
             else [])
         ++ [ProjectView.SelectProject projectId])).
Proof.
  intros Hp update. unfold ProjectView.handleApprove. rewrite Hp.
  cbn [negb]. unfold ProjectView.try_approve. cbv zeta.
  cbn [ProjectView.project ProjectView.set_approving ProjectView.set_error].
  split; intros Hu; rewrite Hu.
  - unfold ProjectView.settle, exn_message. rewrite (get_truthy _ _ Hu).
    reflexivity.
  - rewrite (get_truthy _ "monday_item_id" Hp).
    unfold ClientStatements.on_board.
    destruct (Monday.createMondayService env) as [service|]; simpl rbind.
    + destruct (truthy (get_opt (ProjectView.project st) "monday_item_id"));
        unfold ProjectView.loadProject, ProjectView.settle;
        destruct (truthy (Store.error (ProjectView.selected answers)));
        reflexivity.
    + unfold ProjectView.loadProject, ProjectView.settle.
      destruct (truthy (Store.error (ProjectView.selected answers)));
        reflexivity.
Qed.

End ProjectPage.

(** ** The pages *)

(** X29. The page [project-view] is only ever entered together with a
    selection: in every state the component can reach, whatever the
    session was at each click, [currentPage = 'project-view'] comes with
    a [selectedProjectId] that is not [null], and a selection once made
    is never reset to [null]. *)
Theorem project_page_has_a_selection (st : App.State) :
  App.reachable st ->
  (App.currentPage st = App.project_view ->
   exists id, App.selectedProjectId st = Some id)
  /\ forall loading user c st',
       App.run (App.AppContent loading user st) c st = Some st' ->
       App.selectedProjectId st <> None ->
       App.selectedProjectId st' <> None.
Proof.
  intros Hr. split.
  - induction Hr as [|st st' loading user c Hr IH Hrun];
      [discriminate|].
    intros Hp. unfold App.run in Hrun.
    destruct (App.AppContent loading user st), c; try discriminate;
      injection Hrun as <-; simpl in *; try discriminate; eauto.
  - intros loading user c st' Hrun Hs. unfold App.run in Hrun.
    destruct (App.AppContent loading user st), c; try discriminate;
      injection Hrun as <-; simpl; (assumption || discriminate).
Qed.

(** X30. The state of the pages outlives the session. A signed-out visitor
    sees [Login], [SignUp] or [ForgotPassword] whatever the state; a
    click there keeps the selection and leads, once signed in, to the
    dashboard; without a click, a state left on the page of a project
    shows that project again to whoever signs in next. *)
Theorem pages_outlive_the_session (st : App.State) :
  In (App.AppContent false false st)
     [App.Login; App.SignUp; App.ForgotPassword]
  /\ (forall c st',
        App.run (App.AppContent false false st) c st = Some st' ->
        App.selectedProjectId st' = App.selectedProjectId st
        /\ App.AppContent false true st' = App.Dashboard)
  /\ (forall id,
        App.currentPage st = App.project_view ->
        App.selectedProjectId st = Some id -> id <> [] ->
        App.AppContent false false st = App.Login
        /\ App.AppContent false true st = App.ProjectView id).
Proof.
  destruct st as [page selection]. unfold App.AppContent. cbn [negb].
  cbn [App.currentPage App.selectedProjectId]. split; [|split].
  - destruct page; simpl; tauto.
  - intros c st' Hrun. unfold App.run in Hrun.
    destruct page, c; try discriminate; injection Hrun as <-;
      split; reflexivity.
  - intros id -> -> Hid. destruct id as [|c id]; [contradiction|].
    split; reflexivity.
Qed.

(** ** The sign-up form *)

Section SignUpForm.

Context {number : Type} {engine : Engine number}.

(** [signUp] is called exactly when the two passwords are equal and hold
    at least six UTF-16 code units. A refused form shows a message, the
    mismatch being reported before the length, and leaves [loading] and
    [success] as they were; once [signUp] was called, [loading] ends
    [false] whether it resolved or threw. *)
Theorem signUp_called_for_matching_long_password
  (password confirmPassword : jsstring) (signUp : Result number unit)
  (st : SignUp.State (number := number)) :
  let '(_, st', called) :=
    SignUp.handleSubmit password confirmPassword signUp st in
  (called = true <->
   password = confirmPassword /\ (6 <= List.length password)%nat)
  /\ (called = false ->
      SignUp.loading st' = SignUp.loading st
      /\ SignUp.success st' = SignUp.success st
      /\ SignUp.error st'
         = JStr (js (if str_eqb password confirmPassword
                     then "Password must be at least 6 characters"
                     else "Passwords do not match")))
  /\ (called = true -> SignUp.loading st' = false).
Proof.
  unfold SignUp.handleSubmit.
  destruct (str_eqb password confirmPassword) eqn:He; cbn [negb].
  - apply str_eqb_eq in He.
    destruct (Z.of_nat (List.length password) <? 6)%Z eqn:Hl.
    + apply Z.ltb_lt in Hl. split; [|split].
      * split; [discriminate | lia].
      * intros _. repeat split.
      * discriminate.
    + apply Z.ltb_ge in Hl.
      destruct signUp as [u|e]; [|destruct (exn_message e)];
        (split; [|split]); try discriminate; try reflexivity;
        (split; [intros _; split; [assumption | lia] | reflexivity]).
  - split; [|split].
    + split; [discriminate|]. intros [Hp _].
      apply str_eqb_eq in Hp. congruence.
    + intros _. repeat split.
    + discriminate.
Qed.

End SignUpForm.

End ClientFacts.
(* ===================================================================== *)
(** * More runs under the reference engine                                *)
(* ===================================================================== *)

Module MoreRuns.

Import Js Store Webhook Statements MoreStatements Reference Scenario.
Import MoreScenario WebhookFacts Runs HandlerFacts.

#[local] Abbreviation value := (JsVal literal).

Lemma event_post_change (pulseId columnId : string) (v : value) :
  event_post (change pulseId columnId v).
Proof. split; reflexivity. Defined.


(** ** The webhook *)

Lemma non_post_answered_without_store_witness :
  method probe <> js "POST"
  /\ handler env0 probe w0
     = (Ok (respond 405 (JObj [(js "error", JStr (js "Method not allowed"))])),
        w0).
Proof.
  assert (H1 : method probe <> js "POST") by discriminate.
  split; [exact H1|].
  exact (non_post_answered_without_store env0 probe w0 H1).
Defined.

Lemma missing_credentials_rejected_witness :
  truthy (supabaseServiceKey env_without_key) = false
  /\ handler env_without_key wedding_done w0
     = (Ok (respond 500
              (JObj [(js "error", JStr (js "Missing Supabase credentials"))])),
        w0).
Proof.
  assert (H1 : truthy (supabaseServiceKey env_without_key) = false)
    by reflexivity.
  split; [exact H1|].
  exact (missing_credentials_rejected env_without_key wedding_done w0
           (event_post_change _ _ _) (or_intror H1)).
Defined.







Lemma update_names_known_attributes_witness :
  calls (snd (handler env0 wedding_done w0))
  = calls w0 ++ [first_lookup (JStr (js "9001"))]
    ++ Update (JObj status_completed) (js "id") wedding_id :: []
  /\ exists updates,
       JObj status_completed = JObj updates
       /\ (1 <= List.length updates <= 2)%nat
       /\ forall k, In k (map fst updates) ->
            In k (map js [ "status"; "priority"; "file_url"; "file_name";
                           "due_date"; "grant_view"; "feedback"; "name" ]%string)
            /\ ~ In k (map js [ "id"; "user_id"; "monday_item_id";
                                "created_at"; "updated_at" ]%string).
Proof.
  assert (H1 : calls (snd (handler env0 wedding_done w0))
               = calls w0 ++ [first_lookup (JStr (js "9001"))]
                 ++ Update (JObj status_completed) (js "id") wedding_id :: [])
    by reflexivity.
  split; [exact H1|].
  exact (update_names_known_attributes env0 wedding_done w0
           (JObj status_completed) (js "id") wedding_id
           [first_lookup (JStr (js "9001"))] [] H1).
Defined.

Lemma body_text_is_parsed_witness :
  JSON_parse wedding_done_text = Some (body wedding_done)
  /\ handler env0 {| method := js "POST"; body := JStr wedding_done_text |} w0
     = handler env0 wedding_done w0.
Proof.
  assert (H1 : JSON_parse wedding_done_text = Some (body wedding_done))
    by reflexivity.
  split; [exact H1|].
  exact (body_text_is_parsed env0 wedding_done_text (body wedding_done) w0
           H1 eq_refl eq_refl).
Defined.



Lemma low_plane_character_is_halved_witness :
  strip_glyphs (js "Rush " ++ bold_A ++ js " job")
  = js "Rush " ++ [0xD835] ++ js " job".
Proof.
  exact (low_plane_character_is_halved (js "Rush ") (js " job") 0xD835 0xDC00
           ltac:(lia) ltac:(lia)).
Defined.



(** ** The project creation handler *)

Lemma create_project_forces_initial_status_witness :
  get_opt (body order) "status" = JStr (js "Completed")
  /\ exists row,
       CreateProject.new_row (body order) = Ok row
       /\ lookup (js "status") row = JStr (js "Not Started")
       /\ CreateProject.handler order empty_table
          = (Ok (CreateProject.reply 200 (JObj [(js "success", JBool true)])),
             CreateProject.Build_World [JObj row] [JObj row]).
Proof.
  split; [reflexivity|].
  destruct (CreateProjectFacts.create_project_forces_initial_status
              order empty_table JNull
              (snd (CreateProject.insert_row
                      (JObj match CreateProject.new_row (body order) with
                            | Ok row => row
                            | Throw _ => []
                            end) []))
              eq_refl ltac:(discriminate) ltac:(discriminate))
    as (row & Hrow & Hstatus & _ & _ & Hrun).
  exists row. split; [exact Hrow|]. split; [exact Hstatus|].
  injection Hrow as <-. exact (Hrun eq_refl eq_refl).
Defined.

Lemma create_project_surfaces_store_error_witness :
  CreateProject.handler nameless empty_table
  = (Ok (CreateProject.reply 500
           (JObj [(js "error",
                   JStr (js "null value in column name violates not-null constraint"))])),
     CreateProject.Build_World []
       [JObj [ (js "user_id",
                JStr (js "7a1e0c52-0000-4000-8000-00000000000a"));
               (js "name", JUndefined);
               (js "status", JStr (js "Not Started"));
               (js "priority", JUndefined);
               (js "monday_item_id", JUndefined);
               (js "due_date", JUndefined);
               (js "file_url", JUndefined);
               (js "file_name", JUndefined) ]]).
Proof.
  exact (CreateProjectFacts.create_project_surfaces_store_error
           nameless empty_table _
           (store_error
              "null value in column name violates not-null constraint")
           [] eq_refl eq_refl eq_refl eq_refl).
Defined.

Lemma create_project_without_body_witness :
  body bodiless = JUndefined
  /\ CreateProject.handler bodiless empty_table
     = (Ok (CreateProject.reply 500
              (JObj [(js "error", JStr type_error_message)])),
        empty_table).
Proof.
  split; [reflexivity|].
  exact (CreateProjectFacts.create_project_without_body bodiless empty_table
           eq_refl (or_introl eq_refl)).
Defined.

(** ** The client *)

Lemma makeRequest_returns_clean_data_witness :
  Monday.makeRequest to_text created
  = Ok (JObj [(js "create_update", JObj [(js "id", JStr (js "5550001"))])])
  /\ exists statusText data,
       created = Monday.Responded true statusText (Ok data)
       /\ truthy (get_opt data "errors") = false
       /\ JObj [(js "create_update", JObj [(js "id", JStr (js "5550001"))])]
          = get_opt data "data".
Proof.
  assert (H1 : Monday.makeRequest to_text created
               = Ok (JObj [(js "create_update",
                            JObj [(js "id", JStr (js "5550001"))])]))
    by reflexivity.
  split; [exact H1|].
  exact (ClientFacts.makeRequest_returns_clean_data to_text created _ H1).
Defined.

Lemma item_columns_round_trip_witness :
  let c := Monday.columns_of meta0 in
  let columnValues := Monday.column_values c teaser in
  let event column :=
    JObj [(js "columnId", JStr column);
          (js "value", lookup column columnValues)] in
  dispatch env0 (event (js "files"))
    (safeParse (lookup (js "files") columnValues)) []
  = Ok [(js "file_url", JStr link);
        (js "file_name", JStr (js "Project File"))]
  /\ dispatch env0 (event (js "date4"))
       (safeParse (lookup (js "date4") columnValues)) []
     = Ok [(js "due_date", JStr (js "2025-04-01"))].
Proof.
  destruct (ClientFacts.item_columns_round_trip env0 (Monday.columns_of meta0)
              teaser distinct_env0) as [Hfile Hdate].
  split.
  - exact (Hfile eq_refl ltac:(discriminate) eq_refl).
  - exact (Hdate eq_refl ltac:(discriminate) ltac:(discriminate) eq_refl).
Defined.

Lemma blank_feedback_is_ignored_witness :
  trim (ProjectView.newFeedback (wedding_page "   ")) = []
  /\ ProjectView.handleSubmitFeedback to_text meta0 viewer
       (js "c0a80101-0000-4000-8000-000000000001") board_down
       (wedding_page "   ")
     = (Ok tt, wedding_page "   ", []).
Proof.
  assert (H1 : trim (ProjectView.newFeedback (wedding_page "   ")) = [])
    by reflexivity.
  split; [exact H1|].
  exact (ClientFacts.blank_feedback_is_ignored to_text meta0 viewer
           (js "c0a80101-0000-4000-8000-000000000001") board_down
           (wedding_page "   ") (or_intror (or_intror H1))).
Defined.

Lemma feedback_is_saved_whatever_the_board_answers_witness :
  Monday.addUpdate to_text (ProjectView.board board_down)
  = Throw (Thrown (Monday.error_with (js "Failed to fetch")))
  /\ ProjectView.handleSubmitFeedback to_text meta0 viewer
       (js "c0a80101-0000-4000-8000-000000000001") board_down
       (wedding_page " Love the intro ")
     = (Ok tt,
        {| ProjectView.project := JObj wedding;
           ProjectView.feedbackList :=
             JArr [JObj [(js "message", JStr (js " Love the intro "))]];
           ProjectView.newFeedback := [];
           ProjectView.loading := false;
           ProjectView.submitting := false;
           ProjectView.approving := false;
           ProjectView.error := JStr [] |},
        [ProjectView.AddUpdate (JStr (js "9001")) (js "Love the intro");
         ProjectView.InsertFeedback
           (JObj [(js "project_id",
                   JStr (js "c0a80101-0000-4000-8000-000000000001"));
                  (js "user_id",
                   JStr (js "7a1e0c52-0000-4000-8000-00000000000a"));
                  (js "message", JStr (js " Love the intro "));
                  (js "monday_feedback_id", JNull)]);
         ProjectView.SelectFeedback
           (js "c0a80101-0000-4000-8000-000000000001")]).
Proof.
  split; [reflexivity|].
  exact (ClientFacts.feedback_is_saved_whatever_the_board_answers to_text
           meta0 viewer (js "c0a80101-0000-4000-8000-000000000001") board_down
           (wedding_page " Love the intro ")
           eq_refl eq_refl ltac:(discriminate) eq_refl).
Defined.

Lemma feedback_store_error_is_shown_witness :
  truthy (ProjectView.inserted store_refusing) = true
  /\ ProjectView.handleSubmitFeedback to_text meta0 viewer
       (js "c0a80101-0000-4000-8000-000000000001") store_refusing
       (wedding_page "Nice")
     = (Ok tt,
        {| ProjectView.project := JObj wedding;
           ProjectView.feedbackList := JArr [];
           ProjectView.newFeedback := js "Nice";
           ProjectView.loading := false;
           ProjectView.submitting := false;
           ProjectView.approving := false;
           ProjectView.error :=
             JStr (js "new row violates row-level security policy") |},
        [ProjectView.AddUpdate (JStr (js "9001")) (js "Nice");
         ProjectView.InsertFeedback
           (JObj [(js "project_id",
                   JStr (js "c0a80101-0000-4000-8000-000000000001"));
                  (js "user_id",
                   JStr (js "7a1e0c52-0000-4000-8000-00000000000a"));
                  (js "message", JStr (js "Nice"));
                  (js "monday_feedback_id", JStr (js "5550001"))])]).
Proof.
  split; [reflexivity|].
  exact (ClientFacts.feedback_store_error_is_shown to_text meta0 viewer
           (js "c0a80101-0000-4000-8000-000000000001") store_refusing
           (wedding_page "Nice")
           eq_refl eq_refl ltac:(discriminate) eq_refl).
Defined.

Lemma approve_writes_store_before_board_witness :
  ProjectView.handleApprove meta0
    (js "c0a80101-0000-4000-8000-000000000001") store_refusing
    (wedding_page "")
  = (Ok tt,
     {| ProjectView.project := JObj wedding;
        ProjectView.feedbackList := JArr [];
        ProjectView.newFeedback := [];
        ProjectView.loading := false;
        ProjectView.submitting := false;
        ProjectView.approving := false;
        ProjectView.error :=
          JStr (js "new row violates row-level security policy") |},
     [ProjectView.UpdateProject (JObj [(js "status", JStr (js "Completed"))])
        (js "c0a80101-0000-4000-8000-000000000001")])
  /\ ProjectView.handleApprove meta0
       (js "c0a80101-0000-4000-8000-000000000001") board_down
       (wedding_page "")
     = (Ok tt,
        {| ProjectView.project := JObj wedding_approved;
           ProjectView.feedbackList := JArr [];
           ProjectView.newFeedback := [];
           ProjectView.loading := false;
           ProjectView.submitting := false;
           ProjectView.approving := false;
           ProjectView.error := JStr [] |},
        [ProjectView.UpdateProject
           (JObj [(js "status", JStr (js "Completed"))])
           (js "c0a80101-0000-4000-8000-000000000001");
         ProjectView.UpdateItem (JStr (js "9001"))
           (JObj [(js "status", JObj [(js "label", JStr (js "Completed"))])]);
         ProjectView.SelectProject
           (js "c0a80101-0000-4000-8000-000000000001")]).
Proof.
  split.
  - exact (proj1 (ClientFacts.approve_writes_store_before_board meta0
                    (js "c0a80101-0000-4000-8000-000000000001") store_refusing
                    (wedding_page "") eq_refl) eq_refl).
  - exact (proj2 (ClientFacts.approve_writes_store_before_board meta0
                    (js "c0a80101-0000-4000-8000-000000000001") board_down
                    (wedding_page "") eq_refl) eq_refl).
Defined.

Lemma reachable_opened : App.reachable opened.
Proof.
  exact (App.reach_step App.initial opened false true
           (App.onProjectClick (js "c0a80101-0000-4000-8000-000000000001"))
           App.reach_initial eq_refl).
Defined.

Lemma project_page_has_a_selection_witness :
  App.reachable opened
  /\ exists id, App.selectedProjectId opened = Some id.
Proof.
  split; [exact reachable_opened|].
  exact (proj1 (ClientFacts.project_page_has_a_selection opened
                  reachable_opened) eq_refl).
Defined.

Lemma pages_outlive_the_session_witness :
  App.run (App.AppContent false false opened) App.onSignUpClick opened
  = Some hesitating
  /\ App.AppContent false true hesitating = App.Dashboard
  /\ App.AppContent false false opened = App.Login
  /\ App.AppContent false true opened
     = App.ProjectView (js "c0a80101-0000-4000-8000-000000000001").
Proof.
  destruct (ClientFacts.pages_outlive_the_session opened)
    as (_ & Hclick & Hback).
  split; [reflexivity|]. split.
  - exact (proj2 (Hclick App.onSignUpClick hesitating eq_refl)).
  - exact (Hback (js "c0a80101-0000-4000-8000-000000000001") eq_refl eq_refl
             ltac:(discriminate)).
Defined.

End MoreRuns.
